(** * Trivia API: question store, pagination, search and quiz selection

    A shallow embedding of [backend/flaskr/__init__.py].  Every request
    handler becomes a function from the request parameters and the
    database state to an HTTP outcome (and, for the two writers, the new
    database state).  [abort(code)] is the [Abort] outcome, a
    [jsonify(...), status] return is the [Ok] outcome. *)

From Stdlib Require Import ZArith Ascii String.
From stdpp Require Import base tactics option list sorting strings pretty gmap.

Local Open Scope Z_scope.

(** ** The object model ([models.py]) *)

(** Modelled from the spec: [models.Question] is not part of the sources
    at hand.  The data model gives it the columns [id], [question],
    [answer], [category] (the category id kept in its textual form) and
    [difficulty]; [format] exposes exactly these five fields. *)
Module Question.

Record t : Type := make
  { id : Z;
    question : string;
    answer : string;
    category : string;
    difficulty : Z }.

(** The dictionary returned by [Question.format()]. *)
Record dict : Type := mk_dict
  { d_id : Z;
    d_question : string;
    d_answer : string;
    d_category : string;
    d_difficulty : Z }.

Definition format (q : t) : dict :=
  {| d_id := id q;
     d_question := question q;
     d_answer := answer q;
     d_category := category q;
     d_difficulty := difficulty q |}.

End Question.

(** Modelled from the spec: [models.Category], a pair of a unique id and
    a display label [type]. *)
Module Category.

Record t : Type := make
  { id : Z;
    type : string }.

End Category.

(** ** The database *)

(** The two tables, in storage order, and the sequence that hands out
    question ids. *)
Record db : Type := mk_db
  { questions : list Question.t;
    categories : list Category.t;
    question_seq : Z }.

(** Primary keys are unique and every id in use was drawn from the
    sequence. *)
Record db_wf (d : db) : Prop := mk_db_wf
  { wf_question_ids : NoDup (Question.id <$> questions d);
    wf_category_ids : NoDup (Category.id <$> categories d);
    wf_question_seq : Forall (λ q, Question.id q < question_seq d) (questions d) }.

(** ** Python values used by the handlers *)

(** [str(n)] for an integer. *)
Definition str (n : Z) : string := pretty n.

(** Truth value of a string and of an integer; a missing key gives
    [None], which is falsy. *)
Definition truthy_str (s : option string) : bool :=
  match s with
  | None => false
  | Some s => negb (String.eqb s "")
  end.

Definition truthy_int (n : option Z) : bool :=
  match n with
  | None => false
  | Some n => negb (n =? 0)
  end.

(** [all(xs)] *)
Definition all (xs : list bool) : bool := forallb (λ b, b) xs.

(** Bound adjustment of a slice [l[start:stop]] on a sequence of length
    [len]: a negative bound counts from the end, and both are clamped to
    [0..len]. *)
Definition slice_bound (len i : Z) : Z :=
  if i <? 0 then Z.max (i + len) 0 else Z.min i len.

(** [l[start:stop]] *)
Definition py_slice {A} (l : list A) (start stop : Z) : list A :=
  let len := Z.of_nat (length l) in
  let lo := slice_bound len start in
  let hi := slice_bound len stop in
  take (Z.to_nat (hi - lo)) (drop (Z.to_nat lo) l).

(** ** Outcomes *)

Inductive outcome (A : Type) : Type :=
  | Ok (status : Z) (body : A)
  | Abort (code : Z).
Arguments Ok {A} status body.
Arguments Abort {A} code.

(** The registered error handlers turn an abort code into the JSON
    envelope [(success, error, message)]. *)
Definition error_envelope (code : Z) : option (bool * Z * string) :=
  if code =? 400 then Some (false, 400, "Bad request. Please check your input."%string)
  else if code =? 404 then Some (false, 404, "The requested resource could not be found."%string)
  else if code =? 405 then Some (false, 405, "This HTTP method is not allowed for the requested URL."%string)
  else if code =? 422 then Some (false, 422, "Unprocessable request."%string)
  else if code =? 500 then Some (false, 500, "Something went wrong on the server."%string)
  else None.

(** Body of the three listing responses.  [l_categories] is [None] where
    the response carries no [categories] key. *)
Record listing : Type := mk_listing
  { l_success : bool;
    l_questions : list Question.dict;
    l_totalQuestions : nat;
    l_categories : option (gmap Z string);
    l_currentCategory : option string }.

Record deleted : Type := mk_deleted
  { del_success : bool;
    del_id : Z }.

Record created : Type := mk_created
  { cr_success : bool }.

Record quiz : Type := mk_quiz
  { qz_success : bool;
    qz_question : option Question.dict }.

(** ** Queries *)

Definition QUESTIONS_PER_PAGE : Z := 10.

Definition id_le (a b : Question.t) : Prop := Question.id a ≤ Question.id b.

#[local] Instance id_le_dec a b : Decision (id_le a b).
Proof. unfold id_le. apply _. Defined.

(** [Question.query.order_by(Question.id).all()] *)
Definition order_by_id (qs : list Question.t) : list Question.t :=
  merge_sort id_le qs.

(** [{cat.id: cat.type for cat in cats}]: a later entry overwrites an
    earlier one with the same key. *)
Definition categories_dict (cats : list Category.t) : gmap Z string :=
  foldl (λ m c, <[Category.id c := Category.type c]> m) ∅ cats.

(** [Model.query.get(id)] on the two tables. *)
Definition get_question (d : db) (qid : Z) : option Question.t :=
  List.find (λ q, bool_decide (Question.id q = qid)) (questions d).

Definition get_category (d : db) (cid : Z) : option Category.t :=
  List.find (λ c, bool_decide (Category.id c = cid)) (categories d).

(** ** GET /questions *)

Definition get_questions (page_arg : option Z) (d : db) : outcome listing :=
  let page := default 1 page_arg in
  let per_page := QUESTIONS_PER_PAGE in
  let questions_query := order_by_id (questions d) in
  let formatted_questions := Question.format <$> questions_query in
  let paginated :=
    py_slice formatted_questions ((page - 1) * per_page) (page * per_page) in
  match paginated with
  | [] => Abort 404
  | _ =>
      let cats := categories_dict (categories d) in
      Ok 200 {| l_success := true;
                l_questions := paginated;
                l_totalQuestions := length formatted_questions;
                l_categories := Some cats;
                l_currentCategory := None |}
  end.

(** ** GET /categories *)

Definition get_categories (d : db) : outcome (bool * gmap Z string) :=
  let categories_list := categories d in
  let cats := categories_dict categories_list in
  Ok 200 (true, cats).

(** ** DELETE /questions/<int:question_id> *)

(** [db.session.delete(question); db.session.commit()]: the row with the
    primary key of [question] leaves the table. *)
Definition session_delete (question : Question.t) (d : db) : db :=
  {| questions :=
       filter (λ q, Question.id q ≠ Question.id question) (questions d);
     categories := categories d;
     question_seq := question_seq d |}.

Definition remove_question (question_id : Z) (d : db) : outcome deleted * db :=
  match get_question d question_id with
  | None => (Abort 404, d)
  | Some question =>
      let d' := session_delete question d in
      (Ok 200 {| del_success := true; del_id := question_id |}, d')
  end.

(** ** POST /questions *)

(** ASCII lower case, the case folding used by [ILIKE] on the letters
    [A]..[Z]. *)
Definition lower (c : ascii) : ascii :=
  let n := N_of_ascii c in
  if ((65 <=? n) && (n <=? 90))%N then ascii_of_N (n + 32) else c.

Definition same_letter (a b : ascii) : bool := Ascii.eqb (lower a) (lower b).

(** [text ILIKE pattern]: [%] matches any run of characters, [_] any one
    character, a backslash makes the next character literal, and every
    other character matches itself up to case.  A pattern that ends in a
    lone backslash is rejected by the database; the patterns built below
    end in [%], so that case does not arise (it is [false] here). *)
Fixpoint ilike (pattern : string) (text : string) {struct pattern} : bool :=
  match pattern with
  | EmptyString =>
      match text with EmptyString => true | String _ _ => false end
  | String c rest =>
      if Ascii.eqb c "%" then
        (fix skip (t : string) : bool :=
           ilike rest t
           || match t with EmptyString => false | String _ t' => skip t' end) text
      else if Ascii.eqb c "_" then
        match text with EmptyString => false | String _ t' => ilike rest t' end
      else if Ascii.eqb c "\" then
        match rest with
        | EmptyString => false
        | String e rest' =>
            match text with
            | EmptyString => false
            | String x t' => same_letter e x && ilike rest' t'
            end
        end
      else
        match text with
        | EmptyString => false
        | String x t' => same_letter c x && ilike rest t'
        end
  end.

(** JSON body of a POST to [/questions]; a key that is absent is [None]. *)
Record payload : Type := mk_payload
  { searchTerm : option string;
    question : option string;
    answer : option string;
    difficulty : option Z;
    category : option Z }.

(** Modelled from the spec: [Question(...)] followed by [insert()] from
    [models.py], absent from the sources at hand.  The record gets the
    next id of the sequence, keeps the four values (the category in its
    textual form) and is added to the table. *)
Definition insert (question answer : string) (category difficulty : Z)
    (d : db) : db :=
  let new_question :=
    Question.make (question_seq d) question answer (str category) difficulty in
  {| questions := questions d ++ [new_question];
     categories := categories d;
     question_seq := question_seq d + 1 |}.

(** The search branch of the handler, for a truthy search term. *)
Definition search_questions (search : string) (d : db)
    : outcome (listing + created) * db :=
  let matches :=
    filter (λ q, ilike ("%" +:+ search +:+ "%") (Question.question q) = true)
           (questions d) in
  match matches with
  | [] => (Abort 404, d)
  | _ =>
      let results := Question.format <$> matches in
      (Ok 200 (inl {| l_success := true;
                      l_questions := results;
                      l_totalQuestions := length results;
                      l_categories := None;
                      l_currentCategory := None |}), d)
  end.

(** The rest of the handler: if not a search, it is a create.  The last
    arm of the [match] is never reached, since a missing field is falsy
    and is rejected by the test before it. *)
Definition create_question (p : payload) (d : db)
    : outcome (listing + created) * db :=
  let question_text := question p in
  let answer_text := answer p in
  let difficulty := difficulty p in
  let category := category p in
  if negb (all [truthy_str question_text; truthy_str answer_text;
                truthy_int difficulty; truthy_int category])
  then (Abort 422, d)
  else
    match question_text, answer_text, difficulty, category with
    | Some q, Some a, Some dif, Some cat =>
        (Ok 201 (inr {| cr_success := true |}), insert q a cat dif d)
    | _, _, _, _ => (Abort 422, d)
    end.

Definition add_or_search_question (p : payload) (d : db)
    : outcome (listing + created) * db :=
  match searchTerm p with
  | Some search =>
      if truthy_str (Some search) then search_questions search d
      else create_question p d
  | None => create_question p d
  end.

(** ** GET /categories/<int:category_id>/questions *)

Definition get_questions_by_category (category_id : Z) (d : db)
    : outcome listing :=
  match get_category d category_id with
  | None => Abort 404
  | Some category_obj =>
      let filtered_questions :=
        filter (λ q, Question.category q = str category_id) (questions d) in
      let formatted := Question.format <$> filtered_questions in
      Ok 200 {| l_success := true;
                l_questions := formatted;
                l_totalQuestions := length formatted;
                l_categories := None;
                l_currentCategory := Some (Category.type category_obj) |}
  end.

(** ** POST /quizzes *)

(** A key of a JSON object: absent, present with the value [null], or
    present with a value. *)
Inductive field (A : Type) : Type :=
  | Missing
  | Null
  | Given (value : A).
Arguments Missing {A}.
Arguments Null {A}.
Arguments Given {A} value.

(** Result of an expression that may raise an exception. *)
Inductive py (A : Type) : Type :=
  | Value (a : A)
  | Raises (exception : string).
Arguments Value {A} a.
Arguments Raises {A} exception.

(** The [quiz_category] object, with its [id] as [.get('id', None)]
    reads it: [None] for an absent key and for a null alike. *)
Record quiz_category_obj : Type := mk_quiz_category
  { qc_id : option Z }.

(** The request body. *)
Record quiz_request : Type := mk_quiz_request
  { previous_questions : field (list Z);
    quiz_category : field quiz_category_obj }.

(** [random.choice] on a non-empty sequence [x :: xs]; [rnd] is the
    number drawn from the random source. *)
Definition random_choice {A} (rnd : nat) (x : A) (xs : list A) : A :=
  nth (rnd `mod` S (length xs))%nat (x :: xs) x.

(** The query of [play_quiz]: the category filter applies when the
    selected id is truthy and its text is not ["0"]. *)
Definition available (seen_questions : list Z) (selected_category : option Z)
    (d : db) : list Question.t :=
  match selected_category with
  | Some c =>
      if truthy_int (Some c) && negb (String.eqb (str c) "0") then
        filter (λ q, Question.category q = str c
                     ∧ Question.id q ∉ seen_questions) (questions d)
      else
        filter (λ q, Question.id q ∉ seen_questions) (questions d)
  | None =>
      filter (λ q, Question.id q ∉ seen_questions) (questions d)
  end.

(** [data.get('previous_questions', [])]: the default stands in for an
    absent key only, a null is read as [None]. *)
Definition seen_questions (data : quiz_request) : option (list Z) :=
  match previous_questions data with
  | Missing => Some []
  | Null => None
  | Given previous => Some previous
  end.

(** [data.get('quiz_category', {}).get('id', None)]: the default [{}]
    stands in for an absent key only; a null is read as [None], which
    has no [get]. *)
Definition selected_category (data : quiz_request) : py (option Z) :=
  match quiz_category data with
  | Missing => Value None
  | Null => Raises "AttributeError"
  | Given category => Value (qc_id category)
  end.

(** [~Question.id.in_(seen_questions)]: [in_] takes a list and raises
    on [None]. *)
Definition not_in_ (seen_questions : option (list Z)) : py (list Z) :=
  match seen_questions with
  | Some seen => Value seen
  | None => Raises "ArgumentError"
  end.

(** An exception that the handler does not catch is answered through
    the error handler registered for 500. *)
Definition play_quiz (rnd : nat) (data : quiz_request) (d : db) : outcome quiz :=
  let seen_questions := seen_questions data in
  match selected_category data with
  | Raises _ => Abort 500
  | Value selected_category =>
      match not_in_ seen_questions with
      | Raises _ => Abort 500
      | Value seen =>
          let available_questions := available seen selected_category d in
          match available_questions with
          | [] => Ok 200 {| qz_success := true; qz_question := None |}
          | q :: qs =>
              let next_question := random_choice rnd q qs in
              Ok 200 {| qz_success := true;
                        qz_question := Some (Question.format next_question) |}
          end
      end
  end.

(** ** The service as a transition system *)

Inductive request : Type :=
  | GetCategories
  | GetQuestions (page : option Z)
  | DeleteQuestion (question_id : Z)
  | PostQuestions (p : payload)
  | GetQuestionsByCategory (category_id : Z)
  | PostQuizzes (rnd : nat) (data : quiz_request).

(** Effect of one request on the database: only DELETE and POST
    [/questions] write. *)
Definition step (d : db) (r : request) : db :=
  match r with
  | DeleteQuestion question_id => snd (remove_question question_id d)
  | PostQuestions p => snd (add_or_search_question p d)
  | GetCategories | GetQuestions _ | GetQuestionsByCategory _
  | PostQuizzes _ _ => d
  end.

Definition run (d : db) (rs : list request) : db := foldl step d rs.

(** What a single request can do to the database. *)
Inductive effect (d : db) : db → Prop :=
  | effect_none : effect d d
  | effect_insert q a cat dif : effect d (insert q a cat dif d)
  | effect_delete question : effect d (session_delete question d).

(** ** Notions used to state the properties *)

(** Items of [l] at the indices [i] with [lo <= i < hi]; a list has no
    negative indices. *)
Definition index_range {A} (l : list A) (lo hi : Z) : list A :=
  take (Z.to_nat hi - Z.to_nat lo)%nat (drop (Z.to_nat lo) l).

(** All questions in ascending id order, as exposed to callers. *)
Definition list_all (d : db) : list Question.dict :=
  Question.format <$> order_by_id (questions d).

(** Case-insensitive literal substring test. *)
Fixpoint prefix_ci (term text : string) : bool :=
  match term with
  | EmptyString => true
  | String c term' =>
      match text with
      | EmptyString => false
      | String x text' => same_letter c x && prefix_ci term' text'
      end
  end.

Fixpoint contains_ci (term text : string) : bool :=
  prefix_ci term text
  || match text with
     | EmptyString => false
     | String _ text' => contains_ci term text'
     end.

(** A search term without the characters that [ILIKE] treats specially. *)
Fixpoint plain (term : string) : bool :=
  match term with
  | EmptyString => true
  | String c term' =>
      negb (Ascii.eqb c "%") && negb (Ascii.eqb c "_")
      && negb (Ascii.eqb c "\") && plain term'
  end.

(** A creation field is missing, or present but empty.  Only a text can
    be empty; a number is missing or present. *)
Definition missing_or_empty_text (v : option string) : Prop :=
  v = None ∨ v = Some ""%string.

Definition missing_number (v : option Z) : Prop := v = None.

Definition some_field_missing_or_empty (p : payload) : Prop :=
  missing_or_empty_text (question p) ∨ missing_or_empty_text (answer p)
  ∨ missing_number (category p) ∨ missing_number (difficulty p).

(** What the creation check of the handler rejects: a missing field, an
    empty text, or a number equal to zero. *)
Definition some_field_falsy (p : payload) : Prop :=
  missing_or_empty_text (question p) ∨ missing_or_empty_text (answer p)
  ∨ (category p = None ∨ category p = Some 0)
  ∨ (difficulty p = None ∨ difficulty p = Some 0).

Definition question_ids (d : db) : list Z := Question.id <$> questions d.

Definition category_ids (d : db) : list Z := Category.id <$> categories d.

(** ** Sample data *)

Definition sample_question (i : Z) : Question.t :=
  if i <? 8 then Question.make i "What is the largest planet?" "Jupiter" "1" 2
  else Question.make i "Which is the longest river?" "The Nile" "3" 3.

(** Twelve questions with ids 12, 11, .., 1 in storage order, three
    categories of which the second has no question. *)
Definition sample_db : db :=
  {| questions := sample_question <$> [12; 11; 10; 9; 8; 7; 6; 5; 4; 3; 2; 1];
     categories :=
       [Category.make 1 "Science"; Category.make 2 "Art";
        Category.make 3 "Geography"];
     question_seq := 13 |}.

Definition small_db : db :=
  {| questions := [Question.make 1 "abc" "x" "1" 1];
     categories := [Category.make 1 "Science"];
     question_seq := 2 |}.

(** Page 2 of the sample questions and the sample questions that
    mention a river, as the handlers answer them. *)
Definition sample_page_2 : listing :=
  {| l_success := true;
     l_questions := Question.format <$> (sample_question <$> [11; 12]);
     l_totalQuestions := 12;
     l_categories := Some (categories_dict (categories sample_db));
     l_currentCategory := None |}.

Definition sample_river_hits : listing :=
  {| l_success := true;
     l_questions := Question.format <$> (sample_question <$> [12; 11; 10; 9; 8]);
     l_totalQuestions := 5;
     l_categories := None;
     l_currentCategory := None |}.

Definition search_payload (term : string) : payload :=
  {| searchTerm := Some term; question := None; answer := None;
     difficulty := None; category := None |}.

Definition create_payload (q a : string) (cat dif : Z) : payload :=
  {| searchTerm := None; question := Some q; answer := Some a;
     difficulty := Some dif; category := Some cat |}.

Definition quiz_for (seen : list Z) (cat : option Z) : quiz_request :=
  {| previous_questions := Given seen;
     quiz_category := Given {| qc_id := cat |} |}.

(** ** Responses as a client sees them *)

Definition status_code {A} (o : outcome A) : Z :=
  match o with
  | Ok status _ => status
  | Abort code => code
  end.

(** Status of the answer to a request. *)
Definition respond (d : db) (r : request) : Z :=
  match r with
  | GetCategories => status_code (get_categories d)
  | GetQuestions page => status_code (get_questions page d)
  | DeleteQuestion question_id => status_code (fst (remove_question question_id d))
  | PostQuestions p => status_code (fst (add_or_search_question p d))
  | GetQuestionsByCategory category_id =>
      status_code (get_questions_by_category category_id d)
  | PostQuizzes rnd data => status_code (play_quiz rnd data d)
  end.

(** [data['success']] of a decoded answer: the flag of the body, or the
    flag of the envelope written by the error handler. *)
Definition json_success {A} (flag : A → bool) (o : outcome A) : bool :=
  match o with
  | Ok _ body => flag body
  | Abort code =>
      match error_envelope code with
      | Some (success, _, _) => success
      | None => false
      end
  end.

(** ['questions' in data]: only the listings carry the key. *)
Definition has_questions_key (o : outcome (listing + created)) : bool :=
  match o with
  | Ok _ (inl _) => true
  | Ok _ (inr _) | Abort _ => false
  end.

Definition post_success (body : listing + created) : bool :=
  match body with
  | inl l => l_success l
  | inr c => cr_success c
  end.

(** ** Further notions used to state the properties *)

Fixpoint lowercase (s : string) : string :=
  match s with
  | EmptyString => EmptyString
  | String c s' => String (lower c) (lowercase s')
  end.

Fixpoint no_backslash (s : string) : bool :=
  match s with
  | EmptyString => true
  | String c s' => negb (Ascii.eqb c "\") && no_backslash s'
  end.

(** The request that a quiz client sends after it was served the
    question with id [served]. *)
Definition quiz_after (served : Z) (data : quiz_request) : quiz_request :=
  {| previous_questions :=
       Given (served :: default [] (seen_questions data));
     quiz_category := quiz_category data |}.

(** ** The test suite ([test_flaskr.py]) *)

(** Each test is a function of the database it runs against; it yields
    whether all its assertions hold, and the database it leaves. *)

Definition test_get_paginated_questions (d : db) : bool * db :=
  let response := get_questions (Some 1) d in
  ((status_code response =? 200)
   && json_success l_success response
   && match response with Ok _ _ => true | Abort _ => false end, d).

Definition test_get_paginated_questions_error (d : db) : bool * db :=
  let response := get_questions (Some 999) d in
  ((status_code response =? 404)
   && negb (json_success l_success response), d).

Definition test_delete_question (d : db) : bool * db :=
  let '(question, d1) :=
    match head (questions d) with
    | Some question => (question, d)
    | None =>
        (Question.make (question_seq d) "Test Q" "Test A" (str 1) 1,
         insert "Test Q" "Test A" 1 1 d)
    end in
  let q_id := Question.id question in
  let '(response, d2) := remove_question q_id d1 in
  ((status_code response =? 200)
   && json_success del_success response
   && bool_decide (get_question d2 q_id = None), d2).

Definition test_delete_question_error (d : db) : bool * db :=
  let '(response, d1) := remove_question 99999 d in
  ((status_code response =? 404)
   && negb (json_success del_success response), d1).

Definition test_create_question (d : db) : bool * db :=
  let new_question :=
    create_payload "What is the largest planet?" "Jupiter" 1 2 in
  let '(response, d1) := add_or_search_question new_question d in
  let found :=
    head (filter (λ q, Question.question q = "What is the largest planet?"%string)
            (questions d1)) in
  ((status_code response =? 201)
   && json_success post_success response
   && bool_decide (found ≠ None), d1).

Definition test_create_question_error (d : db) : bool * db :=
  let incomplete :=
    {| searchTerm := None;
       question := Some "Where is the Eiffel Tower?"%string;
       answer := Some "Paris"%string;
       difficulty := None;
       category := None |} in
  let '(response, d1) := add_or_search_question incomplete d in
  ((status_code response =? 422)
   && negb (json_success post_success response), d1).

Definition test_search_question (d : db) : bool * db :=
  let '(response, d1) := add_or_search_question (search_payload "planet") d in
  ((status_code response =? 200)
   && json_success post_success response
   && has_questions_key response, d1).

Definition test_search_question_error (d : db) : bool * db :=
  let '(response, d1) :=
    add_or_search_question (search_payload "zzzzzzzzzzz") d in
  ((status_code response =? 404)
   && negb (json_success post_success response), d1).

Definition test_get_questions_by_category (d : db) : bool * db :=
  let response := get_questions_by_category 1 d in
  ((status_code response =? 200)
   && json_success l_success response
   && match response with Ok _ _ => true | Abort _ => false end, d).

Definition test_get_questions_by_category_error (d : db) : bool * db :=
  let response := get_questions_by_category 99999 d in
  ((status_code response =? 404)
   && negb (json_success l_success response), d).

Definition test_play_quiz (rnd : nat) (d : db) : bool * db :=
  let payload := quiz_for [] (Some 1) in
  let response := play_quiz rnd payload d in
  ((status_code response =? 200)
   && json_success qz_success response
   && match response with Ok _ _ => true | Abort _ => false end, d).

(** * Properties *)

(** ** Ordering and slicing *)

Section ordering.

#[local] Instance id_le_total : Total id_le.
Proof. intros a b. unfold id_le. lia. Qed.

Lemma order_by_id_sorted qs : Sorted id_le (order_by_id qs).
Proof. unfold order_by_id. apply (Sorted_merge_sort id_le). Qed.

Lemma order_by_id_perm qs : order_by_id qs ≡ₚ qs.
Proof. unfold order_by_id. apply (merge_sort_Permutation id_le). Qed.

Lemma order_by_id_length qs : length (order_by_id qs) = length qs.
Proof. by rewrite order_by_id_perm. Qed.

Lemma list_all_length d : length (list_all d) = length (questions d).
Proof. unfold list_all. by rewrite length_fmap, order_by_id_length. Qed.

End ordering.

Section slicing.

Context {A : Type}.
Implicit Types l : list A.

Lemma take_drop_nil_iff l (n m : nat) :
  take (n - m) (drop m l) = [] ↔ (n ≤ m)%nat ∨ (length l ≤ m)%nat.
Proof.
  rewrite <- length_zero_iff_nil, length_take, length_drop. lia.
Qed.

Lemma index_range_nil_iff l lo hi :
  index_range l lo hi = []
  ↔ (Z.to_nat hi ≤ Z.to_nat lo)%nat ∨ (length l ≤ Z.to_nat lo)%nat.
Proof. apply take_drop_nil_iff. Qed.

(** The item at position [k] of the range is the item of [l] at index
    [lo + k], provided that index is below [hi]. *)
Lemma index_range_lookup l lo hi (k : nat) :
  0 ≤ lo →
  index_range l lo hi !! k =
    if decide (lo + Z.of_nat k < hi) then l !! (Z.to_nat lo + k)%nat else None.
Proof.
  intros Hlo. unfold index_range. case_decide as Hk.
  - rewrite lookup_take_lt by lia. by rewrite lookup_drop.
  - apply lookup_take_ge. lia.
Qed.

(** With bounds that are not negative, a slice is the index range. *)
Lemma py_slice_nonneg l lo hi :
  0 ≤ lo → 0 ≤ hi → py_slice l lo hi = index_range l lo hi.
Proof.
  intros Hlo Hhi. unfold py_slice, index_range, slice_bound.
  rewrite !(proj2 (Z.ltb_ge _ _)) by lia.
  set (n := length l).
  destruct (decide (Z.of_nat n ≤ lo)) as [Hout|Hin].
  - rewrite !drop_ge by lia. by rewrite !take_nil.
  - rewrite (Z.min_l lo) by lia.
    destruct (decide (hi ≤ Z.of_nat n)) as [Hh|Hh].
    + rewrite (Z.min_l hi) by lia. f_equal. lia.
    + rewrite (Z.min_r hi) by lia.
      rewrite !take_ge; [done | |]; rewrite length_drop; lia.
Qed.

(** A slice that stops at [0] is empty, wherever it starts. *)
Lemma py_slice_stop_0 l lo : py_slice l lo 0 = [].
Proof.
  unfold py_slice, slice_bound. simpl (0 <? 0).
  rewrite (Z.min_l 0) by lia.
  replace (Z.to_nat (0 - _)) with 0%nat; [done|].
  destruct (Z.ltb_spec lo 0); lia.
Qed.

(** Both bounds negative: the slice is empty exactly when the list has
    no item [-stop] places before its end. *)
Lemma py_slice_neg_nil_iff l lo hi :
  lo < hi → hi < 0 →
  py_slice l lo hi = [] ↔ Z.of_nat (length l) ≤ - hi.
Proof.
  intros Hlt Hhi. unfold py_slice, slice_bound.
  rewrite !(proj2 (Z.ltb_lt _ _)) by lia.
  rewrite <- length_zero_iff_nil, length_take, length_drop. lia.
Qed.

End slicing.

(** ** C1: GET /questions *)

Lemma get_questions_unfold page d :
  get_questions page d =
    match py_slice (list_all d) ((default 1 page - 1) * 10) (default 1 page * 10) with
    | [] => Abort 404
    | items =>
        Ok 200 {| l_success := true;
                  l_questions := items;
                  l_totalQuestions := length (questions d);
                  l_categories := Some (categories_dict (categories d));
                  l_currentCategory := None |}
    end.
Proof.
  unfold get_questions, QUESTIONS_PER_PAGE. fold (list_all d).
  rewrite list_all_length. by destruct (py_slice _ _ _).
Qed.

Lemma get_questions_404_iff page d :
  get_questions page d = Abort 404
  ↔ py_slice (list_all d) ((default 1 page - 1) * 10) (default 1 page * 10) = [].
Proof.
  rewrite get_questions_unfold.
  destruct (py_slice _ _ _); split; intros; done.
Qed.

(** The first page is the first ten questions, fewer if fewer are
    stored; no page argument means the first page. *)
Lemma get_questions_first_page (d : db) :
  questions d ≠ [] →
  get_questions None d = get_questions (Some 1) d
  ∧ get_questions (Some 1) d
    = Ok 200 {| l_success := true;
                l_questions := take 10 (list_all d);
                l_totalQuestions := length (questions d);
                l_categories := Some (categories_dict (categories d));
                l_currentCategory := None |}.
Proof.
  intros Hne. split; [done|].
  rewrite get_questions_unfold. simpl default.
  rewrite py_slice_nonneg by lia.
  change (index_range (list_all d) ((1 - 1) * 10) (1 * 10))
    with (take 10 (list_all d)).
  destruct (list_all d) as [|x l] eqn:Hall; [|done].
  apply (f_equal length) in Hall. rewrite list_all_length in Hall.
  by destruct (questions d).
Qed.

(** C1, as the handler has it.  For a page number [p >= 0] the handler
    returns the items at the indices [(p-1)*10 <= i < p*10] of the
    questions in ascending id order, and the request is answered 404
    whenever that range is empty: for [p = 0] and for a page past the
    last populated one.  Negative page numbers are left out. *)
Theorem get_questions_page (p : Z) (d : db) :
  0 ≤ p →
  Sorted id_le (order_by_id (questions d))
  ∧ order_by_id (questions d) ≡ₚ questions d
  ∧ get_questions (Some p) d =
      match index_range (list_all d) ((p - 1) * 10) (p * 10) with
      | [] => Abort 404
      | items =>
          Ok 200 {| l_success := true;
                    l_questions := items;
                    l_totalQuestions := length (questions d);
                    l_categories := Some (categories_dict (categories d));
                    l_currentCategory := None |}
      end
  ∧ (get_questions (Some p) d = Abort 404
     ↔ p = 0 ∨ Z.of_nat (length (questions d)) ≤ (p - 1) * 10).
Proof.
  intros Hp.
  split; [apply order_by_id_sorted|].
  split; [apply order_by_id_perm|].
  assert (py_slice (list_all d) ((p - 1) * 10) (p * 10)
          = index_range (list_all d) ((p - 1) * 10) (p * 10)) as Hslice.
  { destruct (decide (p = 0)) as [->|Hne].
    - simpl. rewrite py_slice_stop_0. symmetry.
      apply index_range_nil_iff. left. simpl. lia.
    - apply py_slice_nonneg; lia. }
  split.
  - rewrite get_questions_unfold. simpl default. by rewrite Hslice.
  - rewrite get_questions_404_iff. simpl default. rewrite Hslice.
    rewrite index_range_nil_iff, list_all_length. lia.
Qed.

Lemma get_questions_page_witness :
  get_questions (Some 2) sample_db = Abort 404
  ↔ 2 = 0 ∨ Z.of_nat (length (questions sample_db)) ≤ (2 - 1) * 10.
Proof.
  apply (get_questions_page 2 sample_db). lia.
Defined.

(** A negative page number is not answered 404 in general: both slice
    bounds then count from the end of the list. *)
Lemma get_questions_negative_page (p : Z) (d : db) :
  p < 0 →
  get_questions (Some p) d = Abort 404
  ↔ Z.of_nat (length (questions d)) ≤ - (p * 10).
Proof.
  intros Hp. rewrite get_questions_404_iff. simpl default.
  rewrite py_slice_neg_nil_iff by lia. by rewrite list_all_length.
Qed.

(** Page [-1] of twelve questions: the index range is empty, yet the
    answer is a success carrying the questions with ids 1 and 2. *)
Lemma get_questions_minus_one_succeeds :
  -1 ≤ 0
  ∧ index_range (list_all sample_db) ((-1 - 1) * 10) (-1 * 10) = []
  ∧ get_questions (Some (-1)) sample_db ≠ Abort 404
  ∧ ∃ body, get_questions (Some (-1)) sample_db = Ok 200 body
            ∧ Question.d_id <$> l_questions body = [1; 2].
Proof.
  split; [lia|]. split; [reflexivity|]. split; [by vm_compute|].
  eexists. split; [vm_compute; reflexivity|]. reflexivity.
Qed.

(** ** Error envelopes *)

(** The outcomes 404 and 422 reach the caller as envelopes with
    [success] false. *)
Lemma error_envelope_not_found_and_unprocessable :
  error_envelope 404
  = Some (false, 404, "The requested resource could not be found."%string)
  ∧ error_envelope 422 = Some (false, 422, "Unprocessable request."%string).
Proof. by split. Qed.

(** ** C2: search by term *)

Section ilike_facts.

Lemma ilike_percent rest text :
  ilike (String "%" rest) text
  = ilike rest text
    || match text with
       | EmptyString => false
       | String _ text' => ilike (String "%" rest) text'
       end.
Proof. by destruct text. Qed.

Lemma ilike_any text : ilike "%" text = true.
Proof.
  induction text as [|x text IH]; [done|].
  rewrite ilike_percent, IH. by rewrite orb_true_r.
Qed.

Lemma ilike_plain_char c rest text :
  Ascii.eqb c "%" = false → Ascii.eqb c "_" = false → Ascii.eqb c "\" = false →
  ilike (String c rest) text
  = match text with
    | EmptyString => false
    | String x text' => same_letter c x && ilike rest text'
    end.
Proof. intros H1 H2 H3. simpl. by rewrite H1, H2, H3. Qed.

(** A plain term followed by [%] is a case-insensitive prefix test. *)
Lemma ilike_plain_prefix term text :
  plain term = true → ilike (term +:+ "%") text = prefix_ci term text.
Proof.
  revert text. induction term as [|c term IH]; intros text Hplain.
  - apply ilike_any.
  - simpl in Hplain.
    apply andb_prop in Hplain as [Hplain Hrest].
    apply andb_prop in Hplain as [Hplain H3].
    apply andb_prop in Hplain as [H1 H2].
    apply negb_true_iff in H1, H2, H3.
    change (String c term +:+ "%") with (String c (term +:+ "%")).
    rewrite ilike_plain_char by done.
    destruct text as [|x text]; [done|]. simpl. by rewrite IH.
Qed.

(** A plain term between two [%] is a case-insensitive substring test. *)
Lemma ilike_plain_contains term text :
  plain term = true →
  ilike ("%" +:+ term +:+ "%") text = contains_ci term text.
Proof.
  intros Hplain.
  change ("%" +:+ term +:+ "%") with (String "%" (term +:+ "%")).
  induction text as [|x text IH].
  - rewrite ilike_percent, ilike_plain_prefix by done. by destruct term.
  - rewrite ilike_percent, ilike_plain_prefix, IH by done. by destruct term.
Qed.

End ilike_facts.

(** How the handler dispatches: a non-empty search term searches,
    anything else creates. *)
Lemma dispatch_search (term : string) (p : payload) (d : db) :
  searchTerm p = Some term → term ≠ ""%string →
  add_or_search_question p d = search_questions term d.
Proof.
  intros Hs Hne. unfold add_or_search_question. rewrite Hs. simpl.
  by destruct (String.eqb_spec term "").
Qed.

Lemma dispatch_create (p : payload) (d : db) :
  truthy_str (searchTerm p) = false →
  add_or_search_question p d = create_question p d.
Proof.
  unfold add_or_search_question.
  destruct (searchTerm p) as [term|]; [|done]. by intros ->.
Qed.

Lemma dispatch_cases (p : payload) (d : db) :
  (∃ term, searchTerm p = Some term ∧ term ≠ ""%string
           ∧ add_or_search_question p d = search_questions term d)
  ∨ (truthy_str (searchTerm p) = false
     ∧ add_or_search_question p d = create_question p d).
Proof.
  destruct (truthy_str (searchTerm p)) eqn:Ht.
  - left. destruct (searchTerm p) as [term|] eqn:Hs; [|done].
    exists term. simpl in Ht. apply negb_true_iff in Ht.
    assert (term ≠ ""%string) by by apply String.eqb_neq.
    split; [done|]. split; [done|]. by apply dispatch_search.
  - right. split; [done|]. by apply dispatch_create.
Qed.

(** The search branch: taken for a non-empty term, it answers 404 when
    no stored question matches the pattern and otherwise lists the
    matches, leaving the database as it was. *)
Lemma search_unfold (term : string) (p : payload) (d : db) :
  searchTerm p = Some term → term ≠ ""%string →
  add_or_search_question p d =
    (match filter (λ q, ilike ("%" +:+ term +:+ "%") (Question.question q) = true)
                  (questions d) with
     | [] => Abort 404
     | matches =>
         Ok 200 (inl {| l_success := true;
                        l_questions := Question.format <$> matches;
                        l_totalQuestions := length matches;
                        l_categories := None;
                        l_currentCategory := None |})
     end, d).
Proof.
  intros Hs Hne. rewrite (dispatch_search term) by done.
  unfold search_questions.
  destruct (filter _ _); [done|]. by rewrite length_fmap.
Qed.

(** For a term without [%], [_] and backslash the search is the literal
    case-insensitive substring test on the question text. *)
Lemma search_plain_term (term : string) (p : payload) (d : db) :
  searchTerm p = Some term → term ≠ ""%string → plain term = true →
  add_or_search_question p d =
    (match filter (λ q, contains_ci term (Question.question q) = true)
                  (questions d) with
     | [] => Abort 404
     | matches =>
         Ok 200 (inl {| l_success := true;
                        l_questions := Question.format <$> matches;
                        l_totalQuestions := length matches;
                        l_categories := None;
                        l_currentCategory := None |})
     end, d).
Proof.
  intros Hs Hne Hplain. rewrite (search_unfold term) by done.
  replace (filter (λ q, ilike ("%" +:+ term +:+ "%") (Question.question q) = true)
             (questions d))
    with (filter (λ q, contains_ci term (Question.question q) = true)
            (questions d)); [done|].
  apply list_filter_iff. intros q. by rewrite ilike_plain_contains.
Qed.

Lemma search_plan_matches_planet :
  contains_ci "plan" "Jupiter is a planet" = true
  ∧ ilike ("%" +:+ "PLAN" +:+ "%") "Jupiter is a planet" = true.
Proof. by vm_compute. Qed.

(** C2 at the term ["_"]: the text ["abc"] does not contain an
    underscore, so a literal substring search finds nothing, yet the
    handler answers with the question, because [_] reaches the pattern
    unescaped and stands for any one character. *)
Theorem search_underscore_matches_any_text :
  contains_ci "_" "abc" = false
  ∧ filter (λ q, contains_ci "_" (Question.question q) = true)
           (questions small_db) = []
  ∧ fst (add_or_search_question (search_payload "_") small_db)
    = Ok 200 (inl {| l_success := true;
                     l_questions := [Question.mk_dict 1 "abc" "x" "1" 1];
                     l_totalQuestions := 1;
                     l_categories := None;
                     l_currentCategory := None |}).
Proof. by vm_compute. Qed.

(** ** C3, C8: creating a question *)

Lemma truthy_str_false (v : option string) :
  truthy_str v = false ↔ missing_or_empty_text v.
Proof.
  unfold missing_or_empty_text. destruct v as [s|]; simpl.
  - rewrite negb_false_iff, String.eqb_eq. split.
    + intros ->. by right.
    + intros [?|[= ->]]; done.
  - split; [by left | done].
Qed.

Lemma truthy_int_false (v : option Z) :
  truthy_int v = false ↔ v = None ∨ v = Some 0.
Proof.
  destruct v as [n|]; simpl.
  - rewrite negb_false_iff, Z.eqb_eq. split.
    + intros ->. by right.
    + intros [?|[= ->]]; done.
  - split; [by left | done].
Qed.

Lemma all_fields_false (p : payload) :
  all [truthy_str (question p); truthy_str (answer p);
       truthy_int (difficulty p); truthy_int (category p)] = false
  ↔ some_field_falsy p.
Proof.
  unfold some_field_falsy.
  rewrite <- !truthy_str_false, <- !truthy_int_false. unfold all. simpl.
  destruct (truthy_str (question p)), (truthy_str (answer p)),
    (truthy_int (difficulty p)), (truthy_int (category p)); simpl;
    intuition congruence.
Qed.

(** Without a truthy search term the handler is the creation branch. *)
Lemma create_422_iff (p : payload) (d : db) :
  truthy_str (searchTerm p) = false →
  fst (add_or_search_question p d) = Abort 422 ↔ some_field_falsy p.
Proof.
  intros Hs. rewrite <- all_fields_false.
  rewrite dispatch_create by done. unfold create_question.
  unfold all.
  destruct (question p) as [q|], (answer p) as [a|],
    (difficulty p) as [dif|], (category p) as [cat|]; simpl;
    repeat match goal with
      | |- context [String.eqb ?x ?y] => destruct (String.eqb x y)
      | |- context [Z.eqb ?x ?y] => destruct (Z.eqb x y)
      end; simpl; by split.
Qed.

Lemma create_rejected_unchanged (p : payload) (d : db) :
  truthy_str (searchTerm p) = false → some_field_falsy p →
  add_or_search_question p d = (Abort 422, d).
Proof.
  intros Hs Hf. apply all_fields_false in Hf.
  rewrite dispatch_create by done. unfold create_question. by rewrite Hf.
Qed.

Lemma create_accepted (p : payload) (d : db) (q a : string) (cat dif : Z) :
  truthy_str (searchTerm p) = false →
  question p = Some q → answer p = Some a →
  category p = Some cat → difficulty p = Some dif →
  q ≠ ""%string → a ≠ ""%string → cat ≠ 0 → dif ≠ 0 →
  add_or_search_question p d
  = (Ok 201 (inr {| cr_success := true |}), insert q a cat dif d).
Proof.
  intros Hs Hq Ha Hc Hd Hq' Ha' Hc' Hd'.
  rewrite dispatch_create by done. unfold create_question.
  rewrite Hq, Ha, Hc, Hd. unfold all. simpl.
  destruct (String.eqb_spec q ""); [done|].
  destruct (String.eqb_spec a ""); [done|].
  destruct (Z.eqb_spec dif 0); [done|].
  by destruct (Z.eqb_spec cat 0).
Qed.

Section well_formed.

Lemma seq_not_in_use (d : db) : db_wf d → question_seq d ∉ question_ids d.
Proof.
  intros [_ _ Hseq] Hin. unfold question_ids in Hin.
  apply list_elem_of_fmap in Hin as (q & Heq & Hq).
  rewrite Forall_forall in Hseq. specialize (Hseq q Hq). lia.
Qed.

Lemma insert_wf q a cat dif (d : db) : db_wf d → db_wf (insert q a cat dif d).
Proof.
  intros Hwf. pose proof (seq_not_in_use d Hwf) as Hfresh.
  destruct Hwf as [Hq Hc Hseq]. split; simpl.
  - rewrite fmap_app. simpl. apply NoDup_app. split; [done|].
    split; [|apply NoDup_singleton].
    intros i Hi ->%list_elem_of_singleton. by apply Hfresh.
  - done.
  - apply Forall_app. split.
    + eapply Forall_impl; [exact Hseq|]. simpl. intros; lia.
    + apply Forall_singleton. simpl. lia.
Qed.

Lemma session_delete_wf question (d : db) :
  db_wf d → db_wf (session_delete question d).
Proof.
  intros [Hq Hc Hseq]. split; simpl.
  - apply (NoDup_fmap_2_strong Question.id).
    + intros x y Hx%list_elem_of_filter Hy%list_elem_of_filter Heq.
      destruct Hx as [_ Hx], Hy as [_ Hy].
      apply list_elem_of_lookup in Hx as [i Hi], Hy as [j Hj].
      assert (i = j) as ->; [|congruence].
      eapply (NoDup_lookup _ _ _ (Question.id x) Hq);
        rewrite list_lookup_fmap; [by rewrite Hi | by rewrite Hj, Heq].
    + apply NoDup_filter.
      eapply NoDup_fmap_1. exact Hq.
  - done.
  - rewrite Forall_forall in Hseq. apply Forall_forall.
    intros q [_ Hin]%list_elem_of_filter. by apply Hseq.
Qed.

Lemma search_questions_reads (term : string) (d : db) :
  snd (search_questions term d) = d.
Proof. unfold search_questions. by destruct (filter _ _). Qed.

Lemma create_question_effect (p : payload) (d : db) :
  effect d (snd (create_question p d)).
Proof.
  unfold create_question. destruct (negb _); [constructor|].
  destruct (question p), (answer p), (difficulty p), (category p);
    constructor.
Qed.

(** Every request leaves the database alone, inserts one record, or
    deletes the record of one id. *)
Lemma step_effect (d : db) (r : request) : effect d (step d r).
Proof.
  destruct r as [| |qid|p| |]; simpl; try constructor.
  - unfold remove_question. destruct (get_question d qid); constructor.
  - destruct (dispatch_cases p d) as [(term & _ & _ & ->)|[_ ->]].
    + rewrite search_questions_reads. constructor.
    + apply create_question_effect.
Qed.

Lemma step_wf (d : db) (r : request) : db_wf d → db_wf (step d r).
Proof.
  intros Hwf. destruct (step_effect d r); auto using insert_wf, session_delete_wf.
Qed.

Lemma run_wf (rs : list request) (d : db) : db_wf d → db_wf (run d rs).
Proof.
  revert d. induction rs as [|r rs IH]; intros d Hwf; [done|].
  simpl. apply IH. by apply step_wf.
Qed.

End well_formed.

Lemma insert_listed q a cat dif (d : db) :
  Question.mk_dict (question_seq d) q a (str cat) dif
  ∈ list_all (insert q a cat dif d).
Proof.
  unfold list_all.
  change (Question.mk_dict (question_seq d) q a (str cat) dif)
    with (Question.format (Question.make (question_seq d) q a (str cat) dif)).
  apply list_elem_of_fmap_2. rewrite order_by_id_perm. simpl.
  apply elem_of_app. right. apply list_elem_of_singleton. done.
Qed.

Lemma step_seq_mono (d : db) (r : request) :
  question_seq d ≤ question_seq (step d r).
Proof. destruct (step_effect d r); simpl; lia. Qed.

Lemma run_seq_mono (rs : list request) (d : db) :
  question_seq d ≤ question_seq (run d rs).
Proof.
  revert d. induction rs as [|r rs IH]; intros d; simpl; [lia|].
  etrans; [apply (step_seq_mono d r)|apply IH].
Qed.

(** The next id of the sequence was not in use in any earlier state. *)
Lemma seq_never_used (d0 : db) (rs : list request) :
  db_wf d0 → question_seq (run d0 rs) ∉ question_ids d0.
Proof.
  intros [_ _ Hseq] Hin. unfold question_ids in Hin.
  apply list_elem_of_fmap in Hin as (q & Heq & Hq).
  rewrite Forall_forall in Hseq. specialize (Hseq q Hq).
  pose proof (run_seq_mono rs d0). lia.
Qed.

Lemma not_falsy_fields (p : payload) :
  ¬ some_field_falsy p →
  ∃ q a cat dif,
    question p = Some q ∧ answer p = Some a
    ∧ category p = Some cat ∧ difficulty p = Some dif
    ∧ q ≠ ""%string ∧ a ≠ ""%string ∧ cat ≠ 0 ∧ dif ≠ 0.
Proof.
  unfold some_field_falsy, missing_or_empty_text. intros Hnf.
  destruct (question p) as [q|]; [|tauto].
  destruct (answer p) as [a|]; [|tauto].
  destruct (category p) as [cat|]; [|tauto].
  destruct (difficulty p) as [dif|]; [|tauto].
  exists q, a, cat, dif. repeat split; try done; intros ->; tauto.
Qed.

(** C3, as the handler has it.  A creation request is answered 422
    exactly when one of the four fields is missing, is an empty text, or
    is the number zero, and then nothing is stored.  Every other request
    is answered 201, and the table gains one record that carries the
    four values (the category in its textual form) under the next id of
    the sequence, an id that no record holds or held before. *)
Theorem create_question_contract (p : payload) (d : db) :
  truthy_str (searchTerm p) = false →
  (fst (add_or_search_question p d) = Abort 422 ↔ some_field_falsy p)
  ∧ (some_field_falsy p → snd (add_or_search_question p d) = d)
  ∧ (¬ some_field_falsy p →
     ∃ q a cat dif,
       question p = Some q ∧ answer p = Some a
       ∧ category p = Some cat ∧ difficulty p = Some dif
       ∧ add_or_search_question p d
         = (Ok 201 (inr {| cr_success := true |}),
            {| questions :=
                 questions d
                 ++ [Question.make (question_seq d) q a (str cat) dif];
               categories := categories d;
               question_seq := question_seq d + 1 |})
       ∧ Question.mk_dict (question_seq d) q a (str cat) dif
         ∈ list_all (snd (add_or_search_question p d))
       ∧ (db_wf d →
          (question_seq d ∉ question_ids d)
          ∧ db_wf (snd (add_or_search_question p d))
          ∧ ∀ d0 rs, db_wf d0 → d = run d0 rs →
                     question_seq d ∉ question_ids d0)).
Proof.
  intros Hs. split; [by apply create_422_iff|]. split.
  - intros Hf. by rewrite create_rejected_unchanged.
  - intros Hnf.
    destruct (not_falsy_fields p Hnf)
      as (q & a & cat & dif & Hq & Ha & Hc & Hd & Hq' & Ha' & Hc' & Hd').
    exists q, a, cat, dif. repeat (split; [done|]).
    rewrite (create_accepted p d q a cat dif) by done.
    split; [done|]. split; [apply insert_listed|].
    intros Hwf. split; [by apply seq_not_in_use|].
    split; [by apply insert_wf|].
    intros d0 rs Hwf0 ->. by apply seq_never_used.
Qed.

Lemma create_question_contract_witness :
  fst (add_or_search_question
         (create_payload "What is the largest planet?" "Jupiter" 1 2)
         sample_db) = Abort 422
  ↔ some_field_falsy (create_payload "What is the largest planet?" "Jupiter" 1 2).
Proof.
  apply (create_question_contract
           (create_payload "What is the largest planet?" "Jupiter" 1 2)
           sample_db).
  reflexivity.
Defined.

(** A request whose four fields are all present and not empty, with
    difficulty [0], is answered 422. *)
Lemma create_rejects_zero_difficulty :
  ¬ some_field_missing_or_empty (create_payload "Q" "A" 1 0)
  ∧ fst (add_or_search_question (create_payload "Q" "A" 1 0) small_db)
    = Abort 422.
Proof.
  split; [|reflexivity].
  unfold some_field_missing_or_empty, missing_or_empty_text, missing_number.
  simpl. intros [[|]|[[|]|[|]]]; done.
Qed.

(** C8: a search term that is present but empty does not search.  The
    request is handled as a creation request, so it is answered 422
    whenever a creation field is missing, although the empty string
    occurs in every question text. *)
Theorem empty_search_term_creates (p : payload) (d : db) :
  searchTerm p = Some ""%string →
  add_or_search_question p d = create_question p d
  ∧ (fst (add_or_search_question p d) = Abort 422 ↔ some_field_falsy p)
  ∧ (question p = None → answer p = None →
     difficulty p = None → category p = None →
     add_or_search_question p d = (Abort 422, d))
  ∧ (∀ text, contains_ci "" text = true
             ∧ ilike ("%" +:+ "" +:+ "%") text = true).
Proof.
  intros Hs.
  assert (truthy_str (searchTerm p) = false) as Hfalsy by by rewrite Hs.
  split; [|split; [|split]].
  - by apply dispatch_create.
  - by apply create_422_iff.
  - intros Hq _ _ _. apply create_rejected_unchanged; [done|].
    left. by left.
  - intros text. split.
    + by destruct text.
    + by rewrite ilike_plain_contains; [destruct text|].
Qed.

Lemma empty_search_term_creates_witness :
  add_or_search_question (search_payload "") sample_db = (Abort 422, sample_db).
Proof.
  apply (empty_search_term_creates (search_payload "") sample_db);
    reflexivity.
Defined.

(** ** C9: the two meanings of [totalQuestions] *)

(** C9: in a page of the question list [totalQuestions] counts all
    stored questions, whatever the page; in a search result it counts
    the questions that match the term, which are the ones listed. *)
Theorem totalQuestions_meaning (page : option Z) (p : payload) (d : db)
    (s1 s2 : Z) (listed found : listing) :
  get_questions page d = Ok s1 listed →
  fst (add_or_search_question p d) = Ok s2 (inl found) →
  l_totalQuestions listed = length (questions d)
  ∧ ∃ term,
      searchTerm p = Some term
      ∧ l_questions found
        = Question.format
          <$> filter (λ q, ilike ("%" +:+ term +:+ "%") (Question.question q) = true)
                (questions d)
      ∧ l_totalQuestions found = length (l_questions found).
Proof.
  intros Hlist Hfound. split.
  - rewrite get_questions_unfold in Hlist.
    destruct (py_slice _ _ _); [done|]. by inversion Hlist.
  - destruct (dispatch_cases p d) as [(term & Hs & _ & Heq)|[_ Heq]];
      rewrite Heq in Hfound.
    + exists term. split; [done|]. unfold search_questions in Hfound.
      destruct (filter _ _); [done|]. by inversion Hfound.
    + unfold create_question in Hfound. destruct (negb _); [done|].
      by destruct (question p), (answer p), (difficulty p), (category p).
Qed.

Lemma totalQuestions_meaning_witness :
  l_totalQuestions sample_page_2 = length (questions sample_db)
  ∧ ∃ term,
      searchTerm (search_payload "river") = Some term
      ∧ l_questions sample_river_hits
        = Question.format
          <$> filter (λ q, ilike ("%" +:+ term +:+ "%") (Question.question q) = true)
                (questions sample_db)
      ∧ l_totalQuestions sample_river_hits
        = length (l_questions sample_river_hits).
Proof.
  apply (totalQuestions_meaning (Some 2) (search_payload "river") sample_db
           200 200).
  - vm_compute. reflexivity.
  - vm_compute. reflexivity.
Defined.

(** ** C7: deleting a question *)

Section lookups.

Lemma get_question_Some (d : db) (qid : Z) (q : Question.t) :
  get_question d qid = Some q → q ∈ questions d ∧ Question.id q = qid.
Proof.
  unfold get_question. intros [Hin Hp]%find_some.
  split; [by apply list_elem_of_In|]. by apply bool_decide_eq_true in Hp.
Qed.

Lemma get_question_None (d : db) (qid : Z) :
  get_question d qid = None ↔ qid ∉ question_ids d.
Proof.
  unfold get_question, question_ids. split.
  - intros Hnone (q & -> & Hq)%list_elem_of_fmap.
    apply list_elem_of_In in Hq.
    pose proof (find_none _ _ Hnone q Hq) as Hp. simpl in Hp.
    by apply bool_decide_eq_false in Hp.
  - intros Hnot. destruct (List.find _ _) as [q|] eqn:Hfind; [|done].
    destruct (get_question_Some d qid q Hfind) as [Hin <-].
    destruct Hnot. by apply list_elem_of_fmap_2.
Qed.

Lemma get_category_Some (d : db) (cid : Z) (c : Category.t) :
  get_category d cid = Some c → c ∈ categories d ∧ Category.id c = cid.
Proof.
  unfold get_category. intros [Hin Hp]%find_some.
  split; [by apply list_elem_of_In|]. by apply bool_decide_eq_true in Hp.
Qed.

Lemma get_category_None (d : db) (cid : Z) :
  get_category d cid = None ↔ cid ∉ category_ids d.
Proof.
  unfold get_category, category_ids. split.
  - intros Hnone (c & -> & Hc)%list_elem_of_fmap.
    apply list_elem_of_In in Hc.
    pose proof (find_none _ _ Hnone c Hc) as Hp. simpl in Hp.
    by apply bool_decide_eq_false in Hp.
  - intros Hnot. destruct (List.find _ _) as [c|] eqn:Hfind; [|done].
    destruct (get_category_Some d cid c Hfind) as [Hin <-].
    destruct Hnot. by apply list_elem_of_fmap_2.
Qed.

End lookups.

Section filters.

Context {A : Type} (P : A → Prop) `{!∀ x, Decision (P x)}.

Lemma filter_all (l : list A) : Forall P l → filter P l = l.
Proof.
  induction 1 as [|x l Hx _ IH]; [done|].
  by rewrite filter_cons_True, IH.
Qed.

Lemma filter_none (l : list A) : Forall (λ x, ¬ P x) l → filter P l = [].
Proof.
  induction 1 as [|x l Hx _ IH]; [done|].
  by rewrite filter_cons_False.
Qed.

Lemma filter_nil_none (l : list A) : filter P l = [] → Forall (λ x, ¬ P x) l.
Proof.
  intros Hnil. apply Forall_forall. intros x Hin HP.
  by apply (filter_nil_not_elem_of P l x).
Qed.

End filters.

(** Removing the rows with a given id from a table with unique ids
    removes exactly one row when the id is in use. *)
Lemma filter_out_id_length (qid : Z) (qs : list Question.t) :
  NoDup (Question.id <$> qs) → qid ∈ Question.id <$> qs →
  S (length (filter (λ q, Question.id q ≠ qid) qs)) = length qs.
Proof.
  induction qs as [|a qs IH]; simpl; intros Hnd Hin.
  - by apply elem_of_nil in Hin.
  - apply NoDup_cons in Hnd as [Hfresh Hnd].
    rewrite filter_cons. case_decide as Ha.
    + simpl. f_equal. apply IH; [done|].
      apply elem_of_cons in Hin as [->|Hin]; done.
    + subst qid. f_equal. f_equal. apply filter_all.
      apply Forall_forall. intros q Hq Heq.
      apply Hfresh. rewrite <- Heq. by apply list_elem_of_fmap_2.
Qed.

(** An id that is free and below the sequence stays free, whatever
    requests follow. *)
Lemma free_id_stays_free (qid : Z) (rs : list request) (d : db) :
  qid ∉ question_ids d → qid < question_seq d →
  qid ∉ question_ids (run d rs).
Proof.
  revert d. induction rs as [|r rs IH]; intros d Hfree Hlt; [done|].
  simpl. apply IH.
  - destruct (step_effect d r) as [|q a cat dif|x]; [done| |].
    + unfold question_ids. simpl. rewrite fmap_app.
      apply not_elem_of_app. split; [done|].
      simpl. rewrite list_elem_of_singleton. lia.
    + unfold question_ids. simpl.
      intros (q & -> & [_ Hq]%list_elem_of_filter)%list_elem_of_fmap.
      apply Hfree. by apply list_elem_of_fmap_2.
  - pose proof (step_seq_mono d r). lia.
Qed.

(** C7: DELETE answers 404 exactly when no stored record has the id,
    and then changes nothing.  When a record has the id, the answer is
    a success that returns the id; the record is gone, every other
    record stays, the table is one record shorter, and the id shows up
    in no later list of all questions. *)
Theorem remove_question_contract (qid : Z) (d : db) :
  db_wf d →
  (fst (remove_question qid d) = Abort 404 ↔ qid ∉ question_ids d)
  ∧ (qid ∉ question_ids d → snd (remove_question qid d) = d)
  ∧ (qid ∈ question_ids d →
     fst (remove_question qid d)
     = Ok 200 {| del_success := true; del_id := qid |}
     ∧ (∀ q, q ∈ questions (snd (remove_question qid d))
             ↔ q ∈ questions d ∧ Question.id q ≠ qid)
     ∧ S (length (questions (snd (remove_question qid d))))
       = length (questions d)
     ∧ ∀ rs, qid ∉ Question.d_id
                   <$> list_all (run (snd (remove_question qid d)) rs)).
Proof.
  intros Hwf. rewrite <- get_question_None. unfold remove_question.
  destruct (get_question d qid) as [q|] eqn:Hget; simpl.
  - apply get_question_Some in Hget as [Hin <-].
    split; [by split|]. split; [done|]. intros _.
    split; [done|]. split; [|split].
    + intros x. rewrite list_elem_of_filter. tauto.
    + apply filter_out_id_length; [apply Hwf|by apply list_elem_of_fmap_2].
    + intros rs.
      assert (Question.id q ∉ question_ids (run (session_delete q d) rs))
        as Hfree.
      { apply free_id_stays_free.
        - unfold question_ids. simpl.
          by intros (x & Heq & [Hne _]%list_elem_of_filter)%list_elem_of_fmap.
        - simpl. destruct Hwf as [_ _ Hseq].
          rewrite Forall_forall in Hseq. by apply Hseq. }
      intros Hin'. apply Hfree. unfold list_all in Hin'.
      rewrite <- list_fmap_compose in Hin'.
      apply list_elem_of_fmap in Hin' as (x & Heq & Hx).
      rewrite order_by_id_perm in Hx. simpl in Heq. rewrite Heq.
      by apply list_elem_of_fmap_2.
  - split; [by split|]. split; [done|].
    intros Hin. by apply get_question_None in Hget.
Qed.

Lemma sample_db_wf : db_wf sample_db.
Proof. split; compute_done. Defined.

Lemma remove_question_contract_witness :
  (fst (remove_question 3 sample_db) = Abort 404 ↔ 3 ∉ question_ids sample_db)
  ∧ (3 ∉ question_ids sample_db → snd (remove_question 3 sample_db) = sample_db)
  ∧ (3 ∈ question_ids sample_db →
     fst (remove_question 3 sample_db)
     = Ok 200 {| del_success := true; del_id := 3 |}
     ∧ (∀ q, q ∈ questions (snd (remove_question 3 sample_db))
             ↔ q ∈ questions sample_db ∧ Question.id q ≠ 3)
     ∧ S (length (questions (snd (remove_question 3 sample_db))))
       = length (questions sample_db)
     ∧ ∀ rs, 3 ∉ Question.d_id
                  <$> list_all (run (snd (remove_question 3 sample_db)) rs)).
Proof.
  apply (remove_question_contract 3 sample_db). exact sample_db_wf.
Defined.

(** ** C6, C10: questions of a category *)

Lemma str_inj (a b : Z) : str a = str b → a = b.
Proof. unfold str. apply (inj pretty). Qed.

Lemma str_is_0 (c : Z) : String.eqb (str c) "0" = true ↔ c = 0.
Proof.
  rewrite String.eqb_eq. split.
  - intros H. by apply str_inj.
  - by intros ->.
Qed.

Lemma get_questions_by_category_known (cid : Z) (c : Category.t) (d : db) :
  get_category d cid = Some c →
  get_questions_by_category cid d
  = Ok 200
      {| l_success := true;
         l_questions :=
           Question.format
           <$> filter (λ q, Question.category q = str cid) (questions d);
         l_totalQuestions :=
           length (filter (λ q, Question.category q = str cid) (questions d));
         l_categories := None;
         l_currentCategory := Some (Category.type c) |}.
Proof.
  intros Hget. unfold get_questions_by_category.
  by rewrite Hget, length_fmap.
Qed.

(** C6: for a category id of the catalog the handler succeeds with the
    questions whose stored category is the text of that id, and with
    the label of that category as [currentCategory]; for any other id
    it answers 404.  A question stored under an integer category is
    listed exactly under that integer. *)
Theorem questions_by_category_contract (cid : Z) (d : db) :
  (cid ∉ category_ids d → get_questions_by_category cid d = Abort 404)
  ∧ (cid ∈ category_ids d →
     ∃ c, c ∈ categories d ∧ Category.id c = cid
          ∧ (db_wf d → ∀ c', c' ∈ categories d → Category.id c' = cid → c' = c)
          ∧ get_questions_by_category cid d
            = Ok 200
                {| l_success := true;
                   l_questions :=
                     Question.format
                     <$> filter (λ q, Question.category q = str cid)
                           (questions d);
                   l_totalQuestions :=
                     length (filter (λ q, Question.category q = str cid)
                               (questions d));
                   l_categories := None;
                   l_currentCategory := Some (Category.type c) |})
  ∧ (∀ q, q ∈ filter (λ q, Question.category q = str cid) (questions d)
          ↔ q ∈ questions d ∧ Question.category q = str cid)
  ∧ (∀ q cid', Question.category q = str cid' →
               Question.category q = str cid ↔ cid' = cid).
Proof.
  split; [|split; [|split]].
  - intros Hnot. apply get_category_None in Hnot.
    unfold get_questions_by_category. by rewrite Hnot.
  - intros Hin.
    destruct (get_category d cid) as [c|] eqn:Hget.
    + exists c. destruct (get_category_Some d cid c Hget) as [Hc Hid].
      split; [done|]. split; [done|]. split.
      * intros [_ Hnd _] c' Hc' Hid'.
        apply list_elem_of_lookup in Hc as [i Hi], Hc' as [j Hj].
        assert (i = j) as ->; [|congruence].
        eapply (NoDup_lookup _ _ _ cid Hnd);
          rewrite list_lookup_fmap; [by rewrite Hi, <- Hid | by rewrite Hj, <- Hid'].
      * by apply get_questions_by_category_known.
    + by apply get_category_None in Hget.
  - intros q. rewrite list_elem_of_filter. tauto.
  - intros q cid' ->. split; [apply str_inj|by intros ->].
Qed.

Lemma questions_by_category_contract_witness :
  ∃ c, c ∈ categories sample_db ∧ Category.id c = 3
       ∧ (db_wf sample_db →
          ∀ c', c' ∈ categories sample_db → Category.id c' = 3 → c' = c)
       ∧ get_questions_by_category 3 sample_db
         = Ok 200
             {| l_success := true;
                l_questions :=
                  Question.format
                  <$> filter (λ q, Question.category q = str 3)
                        (questions sample_db);
                l_totalQuestions :=
                  length (filter (λ q, Question.category q = str 3)
                            (questions sample_db));
                l_categories := None;
                l_currentCategory := Some (Category.type c) |}.
Proof.
  apply (questions_by_category_contract 3 sample_db). compute_done.
Defined.

(** C10: a category of the catalog without any stored question is
    answered with a success that carries an empty list and a total of
    zero, not with 404. *)
Theorem empty_category_is_success (cid : Z) (d : db) :
  cid ∈ category_ids d →
  Forall (λ q, Question.category q ≠ str cid) (questions d) →
  ∃ c, c ∈ categories d ∧ Category.id c = cid
       ∧ get_questions_by_category cid d
         = Ok 200 {| l_success := true;
                     l_questions := [];
                     l_totalQuestions := 0;
                     l_categories := None;
                     l_currentCategory := Some (Category.type c) |}.
Proof.
  intros Hin Hnone.
  destruct (get_category d cid) as [c|] eqn:Hget.
  - exists c. destruct (get_category_Some d cid c Hget) as [Hc Hid].
    split; [done|]. split; [done|].
    rewrite (get_questions_by_category_known cid c) by done.
    by rewrite (filter_none _ _ Hnone).
  - by apply get_category_None in Hget.
Qed.

Lemma empty_category_is_success_witness :
  ∃ c, c ∈ categories sample_db ∧ Category.id c = 2
       ∧ get_questions_by_category 2 sample_db
         = Ok 200 {| l_success := true;
                     l_questions := [];
                     l_totalQuestions := 0;
                     l_categories := None;
                     l_currentCategory := Some (Category.type c) |}.
Proof.
  apply (empty_category_is_success 2 sample_db); compute_done.
Defined.

(** ** C4, C5: the next quiz question *)

Section quiz_selection.

Lemma random_choice_in {A} (rnd : nat) (x : A) (xs : list A) :
  random_choice rnd x xs ∈ x :: xs.
Proof.
  unfold random_choice. apply list_elem_of_In, nth_In.
  change (length (x :: xs)) with (S (length xs)).
  apply Nat.mod_upper_bound. lia.
Qed.

(** Every member of a non-empty list is drawn for some number. *)
Lemma random_choice_any {A} (x y : A) (xs : list A) :
  y ∈ x :: xs → ∃ rnd, random_choice rnd x xs = y.
Proof.
  intros (i & Hi)%list_elem_of_lookup. exists i.
  pose proof (lookup_lt_Some _ _ _ Hi) as Hlt. simpl in Hlt.
  unfold random_choice. rewrite Nat.mod_small by lia.
  by apply nth_lookup_Some.
Qed.

Lemma category_filter_applies (c : Z) :
  truthy_int (Some c) && negb (String.eqb (str c) "0") = negb (c =? 0).
Proof.
  simpl. destruct (Z.eqb_spec c 0) as [->|Hne]; [done|]. simpl.
  destruct (String.eqb (str c) "0") eqn:Hs; [|done].
  by apply str_is_0 in Hs.
Qed.

Lemma available_unrestricted (seen : list Z) (cat : option Z) (d : db) :
  cat = None ∨ cat = Some 0 →
  available seen cat d = filter (λ q, Question.id q ∉ seen) (questions d).
Proof. by intros [->| ->]. Qed.

Lemma available_restricted (seen : list Z) (c : Z) (d : db) :
  c ≠ 0 →
  available seen (Some c) d
  = filter (λ q, Question.category q = str c ∧ Question.id q ∉ seen)
      (questions d).
Proof.
  intros Hne. unfold available. rewrite category_filter_applies.
  by destruct (Z.eqb_spec c 0).
Qed.

Lemma available_spec (seen : list Z) (cat : option Z) (d : db) (q : Question.t) :
  q ∈ available seen cat d
  ↔ q ∈ questions d ∧ (Question.id q ∉ seen)
    ∧ ∀ c, cat = Some c → c ≠ 0 → Question.category q = str c.
Proof.
  destruct cat as [c|].
  - destruct (decide (c = 0)) as [->|Hne].
    + rewrite available_unrestricted by auto.
      rewrite list_elem_of_filter. split.
      * intros [? ?]. split; [done|]. split; [done|]. by intros c [= <-].
      * intros (? & ? & _). done.
    + rewrite available_restricted by done.
      rewrite list_elem_of_filter. split.
      * intros [[? ?] ?]. split; [done|]. split; [done|]. by intros c' [= <-].
      * intros (? & ? & Hc). split; [|done]. split; [|done]. by apply Hc.
  - rewrite available_unrestricted by auto.
    rewrite list_elem_of_filter. split.
    + intros [? ?]. split; [done|]. split; [done|]. by intros c [=].
    + intros (? & ? & _). done.
Qed.

End quiz_selection.

Section quiz_reads.

(** The handler once both reads have gone through. *)
Lemma play_quiz_readable (rnd : nat) (data : quiz_request) (d : db)
    (seen : list Z) (selected : option Z) :
  seen_questions data = Some seen → selected_category data = Value selected →
  play_quiz rnd data d =
    match available seen selected d with
    | [] => Ok 200 {| qz_success := true; qz_question := None |}
    | q :: qs =>
        Ok 200 {| qz_success := true;
                  qz_question :=
                    Some (Question.format (random_choice rnd q qs)) |}
    end.
Proof. intros Hseen Hsel. unfold play_quiz. by rewrite Hsel, Hseen. Qed.

(** The handler answers 500 exactly when one of the two fields of the
    body is a null. *)
Lemma play_quiz_500_iff (rnd : nat) (data : quiz_request) (d : db) :
  play_quiz rnd data d = Abort 500
  ↔ quiz_category data = Null ∨ previous_questions data = Null.
Proof.
  unfold play_quiz, selected_category, seen_questions.
  destruct (quiz_category data), (previous_questions data); simpl;
    try destruct (available _ _ d);
    (split; [intros H; repeat case_match; try done; auto
            | intros [H|H]; done]).
Qed.

(** A success means that both reads have gone through. *)
Lemma play_quiz_ok_reads (rnd : nat) (data : quiz_request) (d : db)
    (s : Z) (body : quiz) :
  play_quiz rnd data d = Ok s body →
  ∃ seen selected,
    seen_questions data = Some seen ∧ selected_category data = Value selected.
Proof.
  unfold play_quiz.
  destruct (selected_category data) as [selected|]; [|done].
  destruct (seen_questions data) as [seen|]; [|done]. by eauto.
Qed.

End quiz_reads.



(** C5 at a body whose [quiz_category] is null, as in
    [{"previous_questions": [], "quiz_category": null}]: the default of
    [data.get('quiz_category', {})] is not used for a key that is
    present, the read of the id raises, and the request is answered 500
    with the envelope of the error handler, not with a success.  A null
    for [previous_questions] ends the same way. *)
Theorem play_quiz_null_category_fails (rnd : nat) (previous : field (list Z))
    (category : field quiz_category_obj) (d : db) :
  play_quiz rnd {| previous_questions := Given [];
                   quiz_category := Null |} d = Abort 500
  ∧ play_quiz rnd {| previous_questions := previous;
                     quiz_category := Null |} d = Abort 500
  ∧ play_quiz rnd {| previous_questions := Null;
                     quiz_category := category |} d = Abort 500
  ∧ error_envelope 500
    = Some (false, 500, "Something went wrong on the server."%string).
Proof.
  split; [done|]. split; [done|]. split; [|done].
  apply play_quiz_500_iff. by right.
Qed.



(** The quiz is exhausted exactly when every stored question is ruled
    out, by its id or by its category. *)
Lemma play_quiz_exhausted_iff (rnd : nat) (data : quiz_request) (d : db)
    (seen : list Z) (selected : option Z) :
  seen_questions data = Some seen → selected_category data = Value selected →
  play_quiz rnd data d = Ok 200 {| qz_success := true; qz_question := None |}
  ↔ ∀ q, q ∈ questions d → q ∉ available seen selected d.
Proof.
  intros Hseen Hsel.
  rewrite (play_quiz_readable rnd data d seen selected) by done.
  destruct (available _ _ d) as [|x xs] eqn:Hav.
  - split; [|done]. intros _ q _. apply not_elem_of_nil.
  - split; [done|]. intros Hnone. exfalso.
    assert (x ∈ available seen selected d)
      as Hx by (rewrite Hav; apply list_elem_of_here).
    apply (Hnone x); [|apply list_elem_of_here].
    by apply available_spec in Hx as [? _].
Qed.

(** * Further properties of the handlers *)

(** ** GET /categories *)

Section categories_dict_facts.

#[local] Abbreviation add_category :=
  (λ (m : gmap Z string) c, <[Category.id c := Category.type c]> m).

Lemma categories_fold_other cats (m : gmap Z string) (k : Z) :
  k ∉ Category.id <$> cats → foldl add_category m cats !! k = m !! k.
Proof.
  revert m. induction cats as [|a cats IH]; intros m Hk; [done|].
  simpl in *. apply not_elem_of_cons in Hk as [Hne Hk].
  rewrite IH by done. by rewrite lookup_insert_ne.
Qed.

Lemma categories_fold_member cats (m : gmap Z string) (c : Category.t) :
  NoDup (Category.id <$> cats) → c ∈ cats →
  foldl add_category m cats !! Category.id c = Some (Category.type c).
Proof.
  revert m. induction cats as [|a cats IH]; intros m Hnd Hc.
  - by apply elem_of_nil in Hc.
  - simpl in *. apply NoDup_cons in Hnd as [Hfresh Hnd].
    apply elem_of_cons in Hc as [->|Hc]; [|by apply IH].
    rewrite categories_fold_other by done. by rewrite lookup_insert_eq.
Qed.

Lemma categories_fold_origin cats (m : gmap Z string) (k : Z) (t : string) :
  foldl add_category m cats !! k = Some t →
  m !! k = Some t
  ∨ ∃ c, c ∈ cats ∧ Category.id c = k ∧ Category.type c = t.
Proof.
  revert m. induction cats as [|a cats IH]; intros m Hk; [by left|].
  simpl in Hk. apply IH in Hk as [Hk|(c & Hc & Hid & Hty)].
  - destruct (decide (Category.id a = k)) as [Heq|Hne].
    + rewrite <- Heq, lookup_insert_eq in Hk. right. exists a.
      split; [left|]. split; [done|]. congruence.
    + rewrite lookup_insert_ne in Hk by done. by left.
  - right. exists c. split; [by right|done].
Qed.

Lemma categories_fold_size cats (m : gmap Z string) :
  NoDup (Category.id <$> cats) →
  (∀ c, c ∈ cats → m !! Category.id c = None) →
  size (foldl add_category m cats) = (size m + length cats)%nat.
Proof.
  revert m. induction cats as [|a cats IH]; intros m Hnd Hm; simpl.
  - lia.
  - simpl in Hnd. apply NoDup_cons in Hnd as [Hfresh Hnd].
    rewrite IH; [|done|].
    + rewrite map_size_insert_None; [lia|]. apply Hm. left.
    + intros c Hc. rewrite lookup_insert_ne; [apply Hm; by right|].
      intros Heq. apply Hfresh. rewrite Heq. by apply list_elem_of_fmap_2.
Qed.

End categories_dict_facts.

(** The category listing always succeeds.  Every entry of the returned
    dictionary is a stored category; with unique ids every stored
    category is an entry under its id and the dictionary has as many
    entries as the table has rows, none when the table is empty. *)
Theorem get_categories_contract (d : db) :
  get_categories d = Ok 200 (true, categories_dict (categories d))
  ∧ (∀ k t, categories_dict (categories d) !! k = Some t →
            ∃ c, c ∈ categories d ∧ Category.id c = k ∧ Category.type c = t)
  ∧ (NoDup (category_ids d) →
     (∀ c, c ∈ categories d →
           categories_dict (categories d) !! Category.id c
           = Some (Category.type c))
     ∧ size (categories_dict (categories d)) = length (categories d))
  ∧ (categories d = [] → categories_dict (categories d) = ∅).
Proof.
  split; [done|]. split; [|split].
  - intros k t Hk. unfold categories_dict in Hk.
    apply categories_fold_origin in Hk as [Hk|Hk]; [|done].
    by rewrite lookup_empty in Hk.
  - intros Hnd. split.
    + intros c Hc. by apply categories_fold_member.
    + unfold categories_dict. rewrite categories_fold_size; [done|done|].
      intros c _. apply lookup_empty.
  - by intros ->.
Qed.

Lemma get_categories_contract_witness :
  (∀ c, c ∈ categories sample_db →
        categories_dict (categories sample_db) !! Category.id c
        = Some (Category.type c))
  ∧ size (categories_dict (categories sample_db))
    = length (categories sample_db).
Proof.
  apply (get_categories_contract sample_db). compute_done.
Defined.

(** ** Pages of GET /questions *)

Section segments.

Context {A : Type}.
Implicit Types l : list A.

Lemma py_slice_segment l lo hi :
  ∃ pre post, l = pre ++ py_slice l lo hi ++ post.
Proof.
  unfold py_slice.
  set (len := Z.of_nat (length l)).
  set (m := Z.to_nat (slice_bound len lo)).
  set (n := Z.to_nat (slice_bound len hi - slice_bound len lo)).
  exists (take m l), (drop n (drop m l)).
  by rewrite take_drop, take_drop.
Qed.

Lemma slice_bound_diff (len lo hi : Z) :
  0 ≤ len → lo ≤ hi → slice_bound len hi - slice_bound len lo ≤ hi - lo.
Proof.
  intros Hlen Hle. unfold slice_bound.
  destruct (Z.ltb_spec hi 0), (Z.ltb_spec lo 0); lia.
Qed.

Lemma py_slice_length l lo hi :
  lo ≤ hi → (length (py_slice l lo hi) ≤ Z.to_nat (hi - lo))%nat.
Proof.
  intros Hle. unfold py_slice. rewrite length_take.
  pose proof (slice_bound_diff (Z.of_nat (length l)) lo hi ltac:(lia) Hle)
    as Hd.
  etrans; [apply Nat.le_min_l|]. lia.
Qed.

End segments.

(** Whatever the page argument, a successful page is a run of
    consecutive questions of the id-ordered list and holds between one
    and ten of them. *)
Theorem get_questions_page_is_segment (page : option Z) (d : db)
    (s : Z) (body : listing) :
  get_questions page d = Ok s body →
  s = 200
  ∧ (∃ pre post, list_all d = pre ++ l_questions body ++ post)
  ∧ (1 ≤ length (l_questions body) ≤ 10)%nat.
Proof.
  rewrite get_questions_unfold. intros Hok.
  destruct (py_slice_segment (list_all d) ((default 1 page - 1) * 10)
              (default 1 page * 10)) as (pre & post & Hseg).
  pose proof (py_slice_length (list_all d) ((default 1 page - 1) * 10)
                (default 1 page * 10) ltac:(lia)) as Hlen.
  destruct (py_slice _ _ _) as [|x xs]; [done|].
  inversion Hok; subst. simpl in *.
  split; [done|]. split; [by exists pre, post|].
  replace (Z.to_nat _) with 10%nat in Hlen by lia. lia.
Qed.

Lemma get_questions_page_is_segment_witness :
  200 = 200
  ∧ (∃ pre post, list_all sample_db = pre ++ l_questions sample_page_2 ++ post)
  ∧ (1 ≤ length (l_questions sample_page_2) ≤ 10)%nat.
Proof.
  apply (get_questions_page_is_segment (Some 2) sample_db 200 sample_page_2).
  vm_compute. reflexivity.
Defined.

Lemma page_of_rank (d : db) (i : nat) (x : Question.dict) :
  list_all d !! i = Some x →
  ∃ body, get_questions (Some (Z.of_nat (i / 10) + 1)) d = Ok 200 body
          ∧ l_questions body !! (i `mod` 10)%nat = Some x.
Proof.
  intros Hi. rewrite get_questions_unfold. simpl default.
  rewrite py_slice_nonneg by lia.
  pose proof (Nat.div_mod_eq i 10) as Hdm.
  pose proof (Nat.mod_upper_bound i 10 ltac:(lia)) as Hmod.
  assert (index_range (list_all d) ((Z.of_nat (i / 10) + 1 - 1) * 10)
            ((Z.of_nat (i / 10) + 1) * 10) !! (i `mod` 10)%nat = Some x)
    as Hx.
  { rewrite index_range_lookup by lia.
    rewrite decide_True by lia. rewrite <- Hi. f_equal. lia. }
  destruct (index_range _ _ _) as [|y ys]; [done|]. by eexists.
Qed.

(** Pagination reaches every question exactly where its rank says: the
    question at rank [i] of the id-ordered list is item [i mod 10] of
    page [i / 10 + 1], and item [j] of a page [p >= 1] is the question
    at rank [(p - 1) * 10 + j]. *)
Theorem get_questions_rank (d : db) :
  (∀ (i : nat) x, list_all d !! i = Some x →
     ∃ body, get_questions (Some (Z.of_nat (i / 10) + 1)) d = Ok 200 body
             ∧ l_questions body !! (i `mod` 10)%nat = Some x)
  ∧ (∀ (p : Z) s body (j : nat) x,
       1 ≤ p → get_questions (Some p) d = Ok s body →
       l_questions body !! j = Some x →
       (j < 10)%nat ∧ list_all d !! (Z.to_nat ((p - 1) * 10) + j)%nat = Some x).
Proof.
  split; [apply page_of_rank|].
  - intros p s body j x Hp Hok Hj.
    rewrite get_questions_unfold in Hok. simpl default in Hok.
    rewrite py_slice_nonneg in Hok by lia.
    assert (index_range (list_all d) ((p - 1) * 10) (p * 10) !! j = Some x)
      as Hx.
    { destruct (index_range _ _ _); [done|]. by inversion Hok; subst. }
    rewrite index_range_lookup in Hx by lia.
    case_decide; [|done]. split; [lia|done].
Qed.

Lemma get_questions_rank_witness :
  (2 < 10)%nat
  ∧ list_all sample_db !! (Z.to_nat ((1 - 1) * 10) + 2)%nat
    = Some (Question.format (sample_question 3)).
Proof.
  apply (proj2 (get_questions_rank sample_db) 1 200
           {| l_success := true;
              l_questions :=
                Question.format
                <$> (sample_question <$> [1; 2; 3; 4; 5; 6; 7; 8; 9; 10]);
              l_totalQuestions := 12;
              l_categories := Some (categories_dict (categories sample_db));
              l_currentCategory := None |} 2%nat).
  - lia.
  - vm_compute. reflexivity.
  - reflexivity.
Defined.

(** ** Searching *)

(** A request with a non-empty search term is a search and nothing
    else: whatever creation fields it carries, nothing is stored and
    the answer is 200 or 404. *)
Theorem search_never_creates (p : payload) (d : db) (term : string) :
  searchTerm p = Some term → term ≠ ""%string →
  snd (add_or_search_question p d) = d
  ∧ (status_code (fst (add_or_search_question p d)) = 200
     ∨ status_code (fst (add_or_search_question p d)) = 404)
  ∧ add_or_search_question p d
    = add_or_search_question (search_payload term) d.
Proof.
  intros Hs Hne. rewrite (dispatch_search term p d Hs Hne).
  rewrite (dispatch_search term (search_payload term) d) by done.
  split; [apply search_questions_reads|]. split; [|done].
  unfold search_questions. destruct (filter _ _); simpl; auto.
Qed.

Lemma search_never_creates_witness :
  snd (add_or_search_question
         {| searchTerm := Some "river"%string;
            question := Some "Q"%string; answer := Some "A"%string;
            difficulty := Some 1; category := Some 1 |} sample_db)
  = sample_db.
Proof.
  apply (search_never_creates _ sample_db "river"); [reflexivity|done].
Defined.

Section case_folding.

Lemma lower_idem (c : ascii) : lower (lower c) = lower c.
Proof. destruct c as [[] [] [] [] [] [] [] []]; reflexivity. Qed.

Lemma lower_percent (c : ascii) : Ascii.eqb (lower c) "%" = Ascii.eqb c "%".
Proof. destruct c as [[] [] [] [] [] [] [] []]; reflexivity. Qed.

Lemma lower_underscore (c : ascii) : Ascii.eqb (lower c) "_" = Ascii.eqb c "_".
Proof. destruct c as [[] [] [] [] [] [] [] []]; reflexivity. Qed.

Lemma lower_backslash (c : ascii) : Ascii.eqb (lower c) "\" = Ascii.eqb c "\".
Proof. destruct c as [[] [] [] [] [] [] [] []]; reflexivity. Qed.

Lemma same_letter_lower_l (a b : ascii) :
  same_letter (lower a) b = same_letter a b.
Proof. unfold same_letter. by rewrite lower_idem. Qed.

Lemma same_letter_lower_r (a b : ascii) :
  same_letter a (lower b) = same_letter a b.
Proof. unfold same_letter. by rewrite lower_idem. Qed.

Lemma same_letter_refl (a : ascii) : same_letter a a = true.
Proof. apply Ascii.eqb_refl. Qed.

Lemma lowercase_app (a b : string) :
  lowercase (a +:+ b) = lowercase a +:+ lowercase b.
Proof. induction a as [|c a IH]; simpl; [done|]. by rewrite IH. Qed.

(** Unfolding [ilike] one pattern character at a time, on an empty
    text and on a text with a first character. *)
Lemma ilike_cons_nil (c : ascii) (rest : string) :
  ilike (String c rest) "" =
    if Ascii.eqb c "%" then ilike rest "" else false.
Proof.
  simpl. destruct (Ascii.eqb c "%"); [by rewrite orb_false_r|].
  destruct (Ascii.eqb c "_"); [done|].
  destruct (Ascii.eqb c "\"); [by destruct rest|done].
Qed.

Lemma ilike_cons_cons (c : ascii) (rest : string) (x : ascii) (t : string) :
  ilike (String c rest) (String x t) =
    if Ascii.eqb c "%" then ilike rest (String x t) || ilike (String c rest) t
    else if Ascii.eqb c "_" then ilike rest t
    else if Ascii.eqb c "\" then
      match rest with
      | EmptyString => false
      | String e rest' => same_letter e x && ilike rest' t
      end
    else same_letter c x && ilike rest t.
Proof.
  destruct (Ascii.eqb_spec c "%") as [->|Hne]; [apply ilike_percent|].
  simpl. by destruct (Ascii.eqb_spec c "%").
Qed.

(** Induction on a pattern that may consume two characters at once. *)
Lemma pattern_ind (P : string → Prop) :
  P EmptyString →
  (∀ c rest, P rest → (∀ e rest', rest = String e rest' → P rest') →
             P (String c rest)) →
  ∀ pattern, P pattern.
Proof.
  intros Hnil Hcons pattern.
  assert (P pattern ∧ ∀ c, P (String c pattern)) as [? _]; [|done].
  induction pattern as [|e rest' [IH1 IH2]].
  - split; [done|]. intros c. apply Hcons; [done|]. by intros.
  - split; [apply IH2|]. intros c. apply Hcons; [apply IH2|].
    by intros ?? [= _ <-].
Qed.

Lemma ilike_lowercase_pattern (pattern text : string) :
  ilike (lowercase pattern) text = ilike pattern text.
Proof.
  revert text. induction pattern as [|c rest IH IH'] using pattern_ind;
    intros text; [done|].
  change (lowercase (String c rest)) with (String (lower c) (lowercase rest)).
  induction text as [|x text IHt].
  - by rewrite !ilike_cons_nil, lower_percent, IH.
  - rewrite !ilike_cons_cons.
    rewrite lower_percent, lower_underscore, lower_backslash.
    rewrite !IH, IHt, same_letter_lower_l.
    destruct rest as [|e rest']; [done|]. cbn [lowercase].
    by rewrite same_letter_lower_l, (IH' e rest' eq_refl).
Qed.

Lemma ilike_lowercase_text (pattern text : string) :
  ilike pattern (lowercase text) = ilike pattern text.
Proof.
  revert text. induction pattern as [|c rest IH IH'] using pattern_ind;
    intros text; [by destruct text|].
  induction text as [|x text IHt]; [done|].
  cbn [lowercase]. rewrite !ilike_cons_cons.
  rewrite IHt, same_letter_lower_r.
  change (String (lower x) (lowercase text)) with (lowercase (String x text)).
  rewrite !IH.
  destruct rest as [|e rest']; [done|].
  by rewrite same_letter_lower_r, (IH' e rest' eq_refl).
Qed.

End case_folding.

(** Searching ignores the case of ASCII letters, in the term and in the
    stored texts alike. *)
Theorem search_ignores_case (term : string) (d : db) :
  search_questions (lowercase term) d = search_questions term d
  ∧ ∀ text, ilike ("%" +:+ term +:+ "%") (lowercase text)
            = ilike ("%" +:+ term +:+ "%") text.
Proof.
  split; [|intros text; apply ilike_lowercase_text].
  unfold search_questions.
  replace (filter (λ q, ilike ("%" +:+ lowercase term +:+ "%")
                          (Question.question q) = true) (questions d))
    with (filter (λ q, ilike ("%" +:+ term +:+ "%")
                         (Question.question q) = true) (questions d)); [done|].
  apply list_filter_iff. intros q.
  change ("%" +:+ lowercase term +:+ "%")
    with (lowercase "%" +:+ lowercase term +:+ lowercase "%").
  by rewrite <- !lowercase_app, ilike_lowercase_pattern.
Qed.

Section own_text.

Lemma append_empty_r (s : string) : s +:+ "" = s.
Proof.
  induction s as [|c s IH]; [done|].
  change (String c (s +:+ "") = String c s). by rewrite IH.
Qed.

(** A pattern without backslash matches itself: [%] and [_] stand, among
    others, for themselves. *)
Lemma ilike_own_prefix (q rest t : string) :
  no_backslash q = true → ilike rest t = true →
  ilike (q +:+ rest) (q +:+ t) = true.
Proof.
  intros Hq Hrest. induction q as [|c q IH]; [done|].
  simpl in Hq. apply andb_prop in Hq as [Hc Hq]. apply negb_true_iff in Hc.
  specialize (IH Hq).
  change (String c q +:+ rest) with (String c (q +:+ rest)).
  change (String c q +:+ t) with (String c (q +:+ t)).
  rewrite ilike_cons_cons, Hc, same_letter_refl, IH.
  destruct (Ascii.eqb_spec c "%") as [->|_]; [|by destruct (Ascii.eqb c "_")].
  destruct (q +:+ t) as [|y s] eqn:Hqt.
  - by rewrite ilike_cons_nil, IH, orb_true_r.
  - by rewrite ilike_cons_cons, IH, orb_true_r.
Qed.

Lemma ilike_own_text (q : string) :
  no_backslash q = true → ilike ("%" +:+ q +:+ "%") q = true.
Proof.
  intros Hq.
  pose proof (ilike_own_prefix q "%" "" Hq (ilike_any "")) as Hself.
  rewrite append_empty_r in Hself.
  change ("%" +:+ q +:+ "%") with (String "%" (q +:+ "%")).
  rewrite ilike_percent, Hself. done.
Qed.

End own_text.

(** A stored question whose text is not empty and has no backslash is
    found by a search for its own text. *)
Theorem question_found_by_own_text (q : Question.t) (d : db) :
  q ∈ questions d →
  Question.question q ≠ ""%string →
  no_backslash (Question.question q) = true →
  ∃ body,
    add_or_search_question (search_payload (Question.question q)) d
    = (Ok 200 (inl body), d)
    ∧ Question.format q ∈ l_questions body.
Proof.
  intros Hin Hne Hq.
  rewrite (search_unfold (Question.question q)) by done.
  assert (q ∈ filter (λ x, ilike ("%" +:+ Question.question q +:+ "%")
                             (Question.question x) = true) (questions d))
    as Hfound.
  { apply list_elem_of_filter. split; [by apply ilike_own_text|done]. }
  destruct (filter _ _) as [|x xs]; [by apply elem_of_nil in Hfound|].
  eexists. split; [done|]. cbn [l_questions]. by apply list_elem_of_fmap_2.
Qed.

Lemma question_found_by_own_text_witness :
  ∃ body,
    add_or_search_question
      (search_payload (Question.question (sample_question 9))) sample_db
    = (Ok 200 (inl body), sample_db)
    ∧ Question.format (sample_question 9) ∈ l_questions body.
Proof.
  apply (question_found_by_own_text (sample_question 9) sample_db).
  - apply list_elem_of_lookup. exists 3%nat. reflexivity.
  - done.
  - reflexivity.
Defined.

(** A text with a backslash need not be found by its own text: the
    backslash is read as an escape. *)
Lemma backslash_text_not_found : ilike ("%" +:+ "a\b" +:+ "%") "a\b" = false.
Proof. reflexivity. Qed.

(** ** Writes *)

(** Deleting the same id twice: the second request is always answered
    404 and changes nothing. *)
Theorem remove_question_twice (qid : Z) (d : db) :
  remove_question qid (snd (remove_question qid d))
  = (Abort 404, snd (remove_question qid d)).
Proof.
  assert (get_question (snd (remove_question qid d)) qid = None) as Hgone.
  { apply get_question_None. unfold remove_question.
    destruct (get_question d qid) as [q|] eqn:Hget; simpl.
    - apply get_question_Some in Hget as [_ <-].
      unfold question_ids. simpl.
      by intros (x & Heq & [Hne _]%list_elem_of_filter)%list_elem_of_fmap.
    - by apply get_question_None. }
  unfold remove_question at 1. by rewrite Hgone.
Qed.

Lemma play_quiz_status (rnd : nat) (data : quiz_request) (d : db) :
  status_code (play_quiz rnd data d) = 200
  ∨ status_code (play_quiz rnd data d) = 500.
Proof. unfold play_quiz. repeat case_match; simpl; auto. Qed.

Lemma respond_status (d : db) (r : request) :
  respond d r = 200 ∨ respond d r = 201 ∨ respond d r = 404
  ∨ respond d r = 422 ∨ respond d r = 500.
Proof.
  destruct r as [|page|qid|p|cid|rnd data]; simpl.
  - auto.
  - rewrite get_questions_unfold. destruct (py_slice _ _ _); simpl; auto.
  - unfold remove_question. destruct (get_question d qid); simpl; auto.
  - destruct (dispatch_cases p d) as [(term & _ & _ & ->)|[_ ->]].
    + unfold search_questions. destruct (filter _ _); simpl; auto.
    + unfold create_question. destruct (negb _); simpl; [auto|].
      destruct (question p), (answer p), (difficulty p), (category p);
        simpl; auto.
  - unfold get_questions_by_category. destruct (get_category d cid);
      simpl; auto.
  - destruct (play_quiz_status rnd data d) as [->| ->]; auto.
Qed.

(** Failures and writes.  A request answered with a failure status
    (404, 422 or 500) leaves the database as it was.  Only a POST to
    [/questions] is answered 201, and then the table has one question
    more; the table of questions changes only on a DELETE answered 200
    (then it gets shorter) or a POST answered 201; no request changes
    the categories. *)
Theorem failed_requests_do_not_write (d : db) (r : request) :
  (400 ≤ respond d r → step d r = d)
  ∧ (respond d r = 201 →
     (∃ p, r = PostQuestions p)
     ∧ length (questions (step d r)) = S (length (questions d)))
  ∧ (questions (step d r) ≠ questions d →
     (∃ qid, r = DeleteQuestion qid ∧ respond d r = 200
             ∧ (length (questions (step d r)) < length (questions d))%nat)
     ∨ (∃ p, r = PostQuestions p ∧ respond d r = 201))
  ∧ categories (step d r) = categories d.
Proof.
  destruct r as [|page|qid|p|cid|rnd data]; simpl.
  - repeat split; auto; try done.
  - rewrite get_questions_unfold. destruct (py_slice _ _ _); simpl;
      repeat split; auto; try done.
  - unfold remove_question.
    destruct (get_question d qid) as [q|] eqn:Hget; simpl;
      repeat split; auto; try done.
    intros _. left. exists qid. repeat split; try done.
    apply get_question_Some in Hget as [Hin _].
    eapply length_filter_lt; [exact Hin|]. by intros Hne.
  - destruct (dispatch_cases p d) as [(term & _ & _ & ->)|[_ ->]].
    + unfold search_questions. destruct (filter _ _); simpl;
        repeat split; auto; try done.
    + unfold create_question. destruct (negb _); simpl;
        [repeat split; auto; try done|].
      destruct (question p), (answer p), (difficulty p), (category p);
        simpl; repeat split; eauto; try done.
      rewrite length_app. simpl. lia.
  - unfold get_questions_by_category. destruct (get_category d cid); simpl;
      repeat split; auto; try done.
  - destruct (play_quiz_status rnd data d) as [->| ->];
      repeat split; auto; try done.
Qed.

Lemma failed_requests_do_not_write_witness :
  step sample_db (DeleteQuestion 99) = sample_db.
Proof.
  apply (failed_requests_do_not_write sample_db (DeleteQuestion 99)).
  compute_done.
Defined.

(** Every failure reaches the client through a registered error
    handler, whose envelope repeats the status and has [success]
    false. *)
Theorem failures_have_envelopes (d : db) (r : request) :
  400 ≤ respond d r →
  ∃ message, error_envelope (respond d r) = Some (false, respond d r, message).
Proof.
  intros Hfail.
  destruct (respond_status d r) as [H|[H|[H|[H|H]]]];
    rewrite H in *; try lia; by eexists.
Qed.

Lemma failures_have_envelopes_witness :
  ∃ message,
    error_envelope (respond sample_db (DeleteQuestion 99))
    = Some (false, respond sample_db (DeleteQuestion 99), message).
Proof.
  apply (failures_have_envelopes sample_db (DeleteQuestion 99)). compute_done.
Defined.

(** ** The list of all questions across writes *)

Section ordered_list.

#[local] Instance id_le_trans : Transitive id_le.
Proof. intros a b c. unfold id_le. lia. Qed.

Lemma unique_ids_eq (l : list Question.t) (x y : Question.t) :
  NoDup (Question.id <$> l) → x ∈ l → y ∈ l →
  Question.id x = Question.id y → x = y.
Proof.
  intros Hnd Hx Hy Heq.
  apply list_elem_of_lookup in Hx as [i Hi], Hy as [j Hj].
  assert (i = j) as ->; [|congruence].
  eapply (NoDup_lookup _ _ _ (Question.id x) Hnd);
    rewrite list_lookup_fmap; [by rewrite Hi | by rewrite Hj, Heq].
Qed.

(** With unique ids there is one way to order a table by id. *)
Lemma order_by_id_unique (l l' : list Question.t) :
  NoDup (Question.id <$> l) → Sorted id_le l' → l' ≡ₚ l →
  order_by_id l = l'.
Proof.
  intros Hnd Hsorted Hperm.
  apply (Sorted_unique_strong id_le);
    [|apply order_by_id_sorted|done|by rewrite order_by_id_perm].
  intros x y Hx Hy Hxy Hyx. rewrite order_by_id_perm in Hx.
  rewrite Hperm in Hy. apply (unique_ids_eq l); [done..|].
  unfold id_le in *. lia.
Qed.

Lemma StronglySorted_filter {A} (R : relation A) (P : A → Prop)
    `{!∀ x, Decision (P x)} (l : list A) :
  StronglySorted R l → StronglySorted R (filter P l).
Proof.
  induction 1 as [|x l Hl IH Hx]; [constructor|].
  rewrite filter_cons. case_decide; [|done].
  constructor; [done|]. rewrite Forall_forall in Hx. apply Forall_forall.
  intros y [_ Hy]%list_elem_of_filter. by apply Hx.
Qed.

Lemma filter_format (qid : Z) (l : list Question.t) :
  filter (λ x, Question.d_id x ≠ qid) (Question.format <$> l)
  = Question.format <$> filter (λ q, Question.id q ≠ qid) l.
Proof.
  induction l as [|q l IH]; [done|].
  rewrite fmap_cons, !filter_cons, IH. simpl.
  by destruct (decide (Question.id q ≠ qid)).
Qed.

Lemma list_all_insert q a cat dif (d : db) :
  db_wf d →
  list_all (insert q a cat dif d)
  = list_all d ++ [Question.mk_dict (question_seq d) q a (str cat) dif].
Proof.
  intros Hwf. pose proof (insert_wf q a cat dif d Hwf) as [Hnd _ _].
  destruct Hwf as [_ _ Hseq]. unfold list_all.
  rewrite (order_by_id_unique _
             (order_by_id (questions d)
              ++ [Question.make (question_seq d) q a (str cat) dif])).
  - by rewrite fmap_app.
  - exact Hnd.
  - apply StronglySorted_Sorted, StronglySorted_app_2.
    + intros x y Hx ->%list_elem_of_singleton.
      rewrite order_by_id_perm in Hx. rewrite Forall_forall in Hseq.
      specialize (Hseq x Hx). unfold id_le. simpl. lia.
    + apply Sorted_StronglySorted; [apply _|apply order_by_id_sorted].
    + repeat constructor.
  - simpl. by rewrite order_by_id_perm.
Qed.

Lemma list_all_session_delete (question : Question.t) (d : db) :
  NoDup (question_ids d) →
  list_all (session_delete question d)
  = filter (λ x, Question.d_id x ≠ Question.id question) (list_all d).
Proof.
  intros Hnd. unfold list_all. rewrite filter_format. f_equal. simpl.
  apply order_by_id_unique.
  - by apply (NoDup_fmap_2_strong Question.id);
      [intros x y [_ Hx]%list_elem_of_filter [_ Hy]%list_elem_of_filter;
       apply (unique_ids_eq (questions d))
      |apply NoDup_filter; eapply NoDup_fmap_1].
  - apply StronglySorted_Sorted, StronglySorted_filter.
    apply Sorted_StronglySorted; [apply _|apply order_by_id_sorted].
  - by rewrite order_by_id_perm.
Qed.

End ordered_list.

Lemma get_questions_some (p : Z) (d : db) :
  get_questions (Some p) d =
    match py_slice (list_all d) ((p - 1) * 10) (p * 10) with
    | [] => Abort 404
    | items =>
        Ok 200 {| l_success := true;
                  l_questions := items;
                  l_totalQuestions := length (questions d);
                  l_categories := Some (categories_dict (categories d));
                  l_currentCategory := None |}
    end.
Proof. exact (get_questions_unfold (Some p) d). Qed.

Lemma get_questions_some_404_iff (p : Z) (d : db) :
  get_questions (Some p) d = Abort 404
  ↔ py_slice (list_all d) ((p - 1) * 10) (p * 10) = [].
Proof. exact (get_questions_404_iff (Some p) d). Qed.

(** A question that is created comes last in the id-ordered list: it is
    the last item of the last page, as the note on the endpoint asks
    ("the question will appear at the end of the last page"). *)
Theorem created_question_is_last (p : payload) (d : db) :
  db_wf d → truthy_str (searchTerm p) = false → ¬ some_field_falsy p →
  ∃ new,
    Question.d_id new = question_seq d
    ∧ Some (Question.d_question new) = question p
    ∧ Some (Question.d_answer new) = answer p
    ∧ list_all (snd (add_or_search_question p d)) = list_all d ++ [new]
    ∧ (∃ body,
         get_questions (Some (Z.of_nat (length (questions d) / 10) + 1))
           (snd (add_or_search_question p d)) = Ok 200 body
         ∧ last (l_questions body) = Some new)
    ∧ get_questions (Some (Z.of_nat (length (questions d) / 10) + 2))
        (snd (add_or_search_question p d)) = Abort 404.
Proof.
  intros Hwf Hs Hnf.
  destruct (not_falsy_fields p Hnf)
    as (q & a & cat & dif & Hq & Ha & Hc & Hd & Hq' & Ha' & Hc' & Hd').
  rewrite (create_accepted p d q a cat dif) by done. simpl snd.
  exists (Question.mk_dict (question_seq d) q a (str cat) dif).
  pose proof (list_all_insert q a cat dif d Hwf) as Hall.
  pose proof (list_all_length d) as Hlen.
  set (n := length (questions d)) in *.
  pose proof (Nat.div_mod_eq n 10) as Hdm.
  pose proof (Nat.mod_upper_bound n 10 ltac:(lia)) as Hmod.
  set (k := (n / 10)%nat) in *. set (r := (n `mod` 10)%nat) in *.
  clearbody k r.
  repeat (split; [done|]). split.
  - rewrite get_questions_some.
    rewrite py_slice_nonneg by lia. unfold index_range. rewrite Hall.
    replace (Z.to_nat ((Z.of_nat k + 1 - 1) * 10)) with (10 * k)%nat by lia.
    replace (Z.to_nat ((Z.of_nat k + 1) * 10) - 10 * k)%nat
      with 10%nat by lia.
    rewrite drop_app_le by lia.
    rewrite take_ge by (rewrite length_app, length_drop; simpl; lia).
    destruct (drop (10 * k) (list_all d) ++ [_]) as [|y ys] eqn:Hpage.
    { by destruct (drop _ _). }
    eexists. split; [done|]. cbn [l_questions].
    rewrite <- Hpage. apply last_snoc.
  - apply get_questions_some_404_iff.
    rewrite py_slice_nonneg by lia. apply index_range_nil_iff. right.
    rewrite Hall, length_app. simpl. lia.
Qed.

Lemma created_question_is_last_witness :
  ∃ new,
    Question.d_id new = question_seq sample_db
    ∧ Some (Question.d_question new) = question (create_payload "Q" "A" 1 2)
    ∧ Some (Question.d_answer new) = answer (create_payload "Q" "A" 1 2)
    ∧ list_all (snd (add_or_search_question (create_payload "Q" "A" 1 2)
                       sample_db))
      = list_all sample_db ++ [new]
    ∧ (∃ body,
         get_questions
           (Some (Z.of_nat (length (questions sample_db) / 10) + 1))
           (snd (add_or_search_question (create_payload "Q" "A" 1 2)
                   sample_db)) = Ok 200 body
         ∧ last (l_questions body) = Some new)
    ∧ get_questions (Some (Z.of_nat (length (questions sample_db) / 10) + 2))
        (snd (add_or_search_question (create_payload "Q" "A" 1 2) sample_db))
      = Abort 404.
Proof.
  apply (created_question_is_last (create_payload "Q" "A" 1 2) sample_db).
  - exact sample_db_wf.
  - reflexivity.
  - unfold some_field_falsy, missing_or_empty_text. simpl.
    intros [[|]|[[|]|[[|]|[|]]]]; done.
Defined.

(** Deleting a question does not reorder the others: the id-ordered
    list afterwards is the list before without the question of that
    id. *)
Theorem remove_question_keeps_order (qid : Z) (d : db) :
  NoDup (question_ids d) →
  list_all (snd (remove_question qid d))
  = filter (λ x, Question.d_id x ≠ qid) (list_all d).
Proof.
  intros Hnd. unfold remove_question.
  destruct (get_question d qid) as [q|] eqn:Hget; simpl.
  - apply get_question_Some in Hget as [_ <-].
    by apply list_all_session_delete.
  - symmetry. apply filter_all, Forall_forall.
    intros x Hx Heq. apply get_question_None in Hget. apply Hget.
    unfold list_all in Hx.
    apply list_elem_of_fmap in Hx as (y & -> & Hy).
    rewrite order_by_id_perm in Hy. simpl in Heq. rewrite <- Heq.
    by apply list_elem_of_fmap_2.
Qed.

Lemma remove_question_keeps_order_witness :
  list_all (snd (remove_question 5 sample_db))
  = filter (λ x, Question.d_id x ≠ 5) (list_all sample_db).
Proof.
  apply (remove_question_keeps_order 5 sample_db). compute_done.
Defined.

(** Creating a question and deleting it again gives back the table as
    it was; only the sequence has moved on, so the id is not handed out
    again. *)
Theorem create_then_delete (p : payload) (d : db) :
  db_wf d → truthy_str (searchTerm p) = false → ¬ some_field_falsy p →
  fst (remove_question (question_seq d) (snd (add_or_search_question p d)))
  = Ok 200 {| del_success := true; del_id := question_seq d |}
  ∧ questions (snd (remove_question (question_seq d)
                      (snd (add_or_search_question p d))))
    = questions d
  ∧ categories (snd (remove_question (question_seq d)
                       (snd (add_or_search_question p d))))
    = categories d
  ∧ question_seq (snd (remove_question (question_seq d)
                         (snd (add_or_search_question p d))))
    = question_seq d + 1.
Proof.
  intros Hwf Hs Hnf.
  destruct (not_falsy_fields p Hnf)
    as (q & a & cat & dif & Hq & Ha & Hc & Hd & Hq' & Ha' & Hc' & Hd').
  rewrite (create_accepted p d q a cat dif) by done. simpl snd.
  set (new := Question.make (question_seq d) q a (str cat) dif).
  pose proof (seq_not_in_use d Hwf) as Hfresh.
  assert (Forall (λ x, Question.id x ≠ question_seq d) (questions d)) as Hold.
  { apply Forall_forall. intros x Hx Heq. apply Hfresh.
    rewrite <- Heq. by apply list_elem_of_fmap_2. }
  assert (get_question (insert q a cat dif d) (question_seq d) = Some new)
    as Hget.
  { unfold get_question. simpl. clear -Hold.
    induction Hold as [|x l Hx _ IH]; simpl.
    - by rewrite bool_decide_eq_true_2.
    - by rewrite bool_decide_eq_false_2. }
  unfold remove_question. rewrite Hget. simpl.
  split; [done|]. split; [|done].
  rewrite filter_app, (filter_all _ _ Hold).
  rewrite filter_cons_False, filter_nil by (simpl; auto).
  apply app_nil_r.
Qed.

Lemma create_then_delete_witness :
  questions (snd (remove_question (question_seq sample_db)
                    (snd (add_or_search_question (create_payload "Q" "A" 1 2)
                            sample_db))))
  = questions sample_db.
Proof.
  apply (create_then_delete (create_payload "Q" "A" 1 2) sample_db).
  - exact sample_db_wf.
  - reflexivity.
  - unfold some_field_falsy, missing_or_empty_text. simpl.
    intros [[|]|[[|]|[[|]|[|]]]]; done.
Defined.

(** ** Playing a quiz *)

Section quiz_rounds.

Lemma available_after (i : Z) (seen : list Z) (cat : option Z) (d : db) :
  available (i :: seen) cat d
  = filter (λ q, Question.id q ≠ i) (available seen cat d).
Proof.
  unfold available.
  destruct cat as [c|]; [destruct (_ && _)|];
    rewrite list_filter_filter; apply list_filter_iff; intros q;
    rewrite not_elem_of_cons; tauto.
Qed.

Lemma available_ids_unique (seen : list Z) (cat : option Z) (d : db) :
  NoDup (question_ids d) → NoDup (Question.id <$> available seen cat d).
Proof.
  intros Hnd.
  assert (∀ (P : Question.t → Prop) `{!∀ x, Decision (P x)},
            NoDup (Question.id <$> filter P (questions d))) as Hfilter.
  { intros P ?. apply (NoDup_fmap_2_strong Question.id).
    - intros x y [_ Hx]%list_elem_of_filter [_ Hy]%list_elem_of_filter.
      by apply (unique_ids_eq (questions d)).
    - apply NoDup_filter. by eapply NoDup_fmap_1. }
  unfold available. destruct cat as [c|]; [destruct (_ && _)|]; apply Hfilter.
Qed.

Lemma play_quiz_served (rnd : nat) (data : quiz_request) (d : db)
    (s : Z) (body : quiz) (q : Question.dict) :
  play_quiz rnd data d = Ok s body → qz_question body = Some q →
  ∃ seen selected row,
    seen_questions data = Some seen
    ∧ selected_category data = Value selected
    ∧ q = Question.format row
    ∧ row ∈ available seen selected d.
Proof.
  intros Hplay Hq.
  destruct (play_quiz_ok_reads _ _ _ _ _ Hplay)
    as (seen & selected & Hseen & Hsel).
  rewrite (play_quiz_readable rnd data d seen selected) in Hplay by done.
  destruct (available _ _ d) as [|x xs] eqn:Hav.
  - inversion Hplay; subst. done.
  - inversion Hplay; subst. simpl in Hq. inversion Hq; subst.
    exists seen, selected, (random_choice rnd x xs).
    repeat (split; [done|]). rewrite Hav. apply random_choice_in.
Qed.

End quiz_rounds.

(** A quiz does not repeat itself.  Once the client has put the id of
    the question it was served among the previous questions, the
    candidates are the earlier candidates without that question, so it
    is never served again; with unique ids there is exactly one
    candidate fewer.  Here [seen] is the list read from
    [previous_questions] and [selected] the id read from
    [quiz_category] of the first request. *)
Theorem quiz_never_repeats (rnd : nat) (data : quiz_request) (d : db)
    (s : Z) (body : quiz) (q : Question.dict) :
  play_quiz rnd data d = Ok s body → qz_question body = Some q →
  ∃ seen selected,
    seen_questions data = Some seen
    ∧ selected_category data = Value selected
    ∧ seen_questions (quiz_after (Question.d_id q) data)
      = Some (Question.d_id q :: seen)
    ∧ selected_category (quiz_after (Question.d_id q) data) = Value selected
    ∧ available (Question.d_id q :: seen) selected d
      = filter (λ x, Question.id x ≠ Question.d_id q)
          (available seen selected d)
    ∧ (∀ rnd' s' body' q',
         play_quiz rnd' (quiz_after (Question.d_id q) data) d = Ok s' body' →
         qz_question body' = Some q' → Question.d_id q' ≠ Question.d_id q)
    ∧ (NoDup (question_ids d) →
       S (length (available (Question.d_id q :: seen) selected d))
       = length (available seen selected d)).
Proof.
  intros Hplay Hq.
  destruct (play_quiz_served _ _ _ _ _ _ Hplay Hq)
    as (seen & selected & row & Hseen & Hsel & -> & Hrow).
  assert (seen_questions (quiz_after (Question.d_id (Question.format row)) data)
          = Some (Question.d_id (Question.format row) :: seen)) as Hseen'.
  { unfold quiz_after, seen_questions at 1. simpl. by rewrite Hseen. }
  assert (selected_category
            (quiz_after (Question.d_id (Question.format row)) data)
          = Value selected) as Hsel' by done.
  exists seen, selected. repeat (split; [done|]).
  rewrite available_after. split; [done|]. split.
  - intros rnd' s' body' q' Hplay' Hq'.
    destruct (play_quiz_served _ _ _ _ _ _ Hplay' Hq')
      as (seen' & selected' & row' & Hs' & Hc' & -> & Hrow').
    rewrite Hseen' in Hs'. rewrite Hsel' in Hc'.
    injection Hs' as <-. injection Hc' as <-.
    rewrite available_after in Hrow'.
    by apply list_elem_of_filter in Hrow' as [Hne _].
  - intros Hnd.
    apply filter_out_id_length; [by apply available_ids_unique|].
    by apply (list_elem_of_fmap_2 Question.id) in Hrow.
Qed.

Lemma quiz_never_repeats_witness :
  ∃ seen selected,
    seen_questions (quiz_for [8; 12] (Some 3)) = Some seen
    ∧ selected_category (quiz_for [8; 12] (Some 3)) = Value selected
    ∧ seen_questions
        (quiz_after (Question.d_id (Question.format (sample_question 10)))
           (quiz_for [8; 12] (Some 3)))
      = Some (Question.d_id (Question.format (sample_question 10)) :: seen)
    ∧ selected_category
        (quiz_after (Question.d_id (Question.format (sample_question 10)))
           (quiz_for [8; 12] (Some 3))) = Value selected
    ∧ available (Question.d_id (Question.format (sample_question 10)) :: seen)
        selected sample_db
      = filter
          (λ x, Question.id x
                ≠ Question.d_id (Question.format (sample_question 10)))
          (available seen selected sample_db)
    ∧ (∀ rnd' s' body' q',
         play_quiz rnd'
           (quiz_after (Question.d_id (Question.format (sample_question 10)))
              (quiz_for [8; 12] (Some 3))) sample_db = Ok s' body' →
         qz_question body' = Some q' →
         Question.d_id q'
         ≠ Question.d_id (Question.format (sample_question 10)))
    ∧ (NoDup (question_ids sample_db) →
       S (length
            (available
               (Question.d_id (Question.format (sample_question 10)) :: seen)
               selected sample_db))
       = length (available seen selected sample_db)).
Proof.
  apply (quiz_never_repeats 4 (quiz_for [8; 12] (Some 3)) sample_db 200
           {| qz_success := true;
              qz_question := Some (Question.format (sample_question 10)) |}).
  - vm_compute. reflexivity.
  - reflexivity.
Defined.

(** The first question of a quiz on a category is drawn from exactly the
    questions that the listing of that category shows: whatever is
    drawn is listed, and everything listed is drawn for some number. *)
Theorem quiz_draws_from_category_listing (c : Z) (d : db) :
  c ≠ 0 → c ∈ category_ids d →
  ∃ listed,
    get_questions_by_category c d = Ok 200 listed
    ∧ (∀ rnd s body q,
         play_quiz rnd (quiz_for [] (Some c)) d = Ok s body →
         qz_question body = Some q → q ∈ l_questions listed)
    ∧ (∀ q, q ∈ l_questions listed →
         ∃ rnd, play_quiz rnd (quiz_for [] (Some c)) d
                = Ok 200 {| qz_success := true; qz_question := Some q |}).
Proof.
  intros Hne Hin.
  destruct (get_category d c) as [cat|] eqn:Hget;
    [|by apply get_category_None in Hget].
  rewrite (get_questions_by_category_known c cat d Hget).
  eexists. split; [done|]. cbn [l_questions].
  assert (available [] (Some c) d
          = filter (λ q, Question.category q = str c) (questions d)) as Hav.
  { rewrite available_restricted by done. apply list_filter_iff.
    intros q. split; [tauto|]. intros ?. split; [done|]. apply not_elem_of_nil. }
  split.
  - intros rnd s body q Hplay Hq.
    destruct (play_quiz_served _ _ _ _ _ _ Hplay Hq)
      as (seen & selected & row & [= <-] & [= <-] & -> & Hrow).
    rewrite Hav in Hrow. by apply list_elem_of_fmap_2.
  - intros q (row & -> & Hrow)%list_elem_of_fmap.
    rewrite <- Hav in Hrow.
    destruct (available [] (Some c) d) as [|x xs] eqn:Hcandidates;
      [by apply elem_of_nil in Hrow|].
    destruct (random_choice_any x row xs Hrow) as [rnd Hrnd].
    exists rnd.
    rewrite (play_quiz_readable rnd (quiz_for [] (Some c)) d [] (Some c))
      by done.
    by rewrite Hcandidates, Hrnd.
Qed.

Lemma quiz_draws_from_category_listing_witness :
  ∃ listed,
    get_questions_by_category 3 sample_db = Ok 200 listed
    ∧ (∀ rnd s body q,
         play_quiz rnd (quiz_for [] (Some 3)) sample_db = Ok s body →
         qz_question body = Some q → q ∈ l_questions listed)
    ∧ (∀ q, q ∈ l_questions listed →
         ∃ rnd, play_quiz rnd (quiz_for [] (Some 3)) sample_db
                = Ok 200 {| qz_success := true; qz_question := Some q |}).
Proof.
  apply (quiz_draws_from_category_listing 3 sample_db); [lia|compute_done].
Defined.

(** ** The test suite *)

Section test_suite.

Lemma planet_question_accepted (d : db) :
  add_or_search_question
    (create_payload "What is the largest planet?" "Jupiter" 1 2) d
  = (Ok 201 (inr {| cr_success := true |}),
     insert "What is the largest planet?" "Jupiter" 1 2 d).
Proof. by apply create_accepted. Qed.

Lemma head_filter_app_hit {A} (P : A → Prop) `{!∀ x, Decision (P x)}
    (l : list A) (x : A) :
  P x → head (filter P (l ++ [x])) ≠ None.
Proof.
  intros Hx. rewrite filter_app, filter_cons_True by done.
  by destruct (filter P l).
Qed.

Lemma search_hits_iff (term : string) (d : db) :
  term ≠ ""%string → plain term = true →
  (∃ body, add_or_search_question (search_payload term) d
           = (Ok 200 (inl body), d) ∧ l_success body = true)
  ↔ ∃ q, q ∈ questions d ∧ contains_ci term (Question.question q) = true.
Proof.
  intros Hne Hplain. rewrite (search_plain_term term) by done.
  destruct (filter _ _) as [|x xs] eqn:Hf.
  - split; [by intros (body & [=] & _)|].
    intros (q & Hq & Hc).
    assert (q ∈ filter (λ q, contains_ci term (Question.question q) = true)
                  (questions d)) as Hin by by apply list_elem_of_filter.
    rewrite Hf in Hin. by apply elem_of_nil in Hin.
  - split; [|by eexists].
    intros _. exists x.
    assert (x ∈ filter (λ q, contains_ci term (Question.question q) = true)
                  (questions d)) as Hin by (rewrite Hf; left).
    apply list_elem_of_filter in Hin as [? ?]. done.
Qed.

Lemma get_questions_cases (page : option Z) (d : db) :
  get_questions page d = Abort 404
  ∨ ∃ body, get_questions page d = Ok 200 body ∧ l_success body = true.
Proof.
  rewrite get_questions_unfold. destruct (py_slice _ _ _); [by left|].
  right. by eexists.
Qed.

Lemma page_999_missing_iff (d : db) :
  get_questions (Some 999) d = Abort 404
  ↔ Z.of_nat (length (questions d)) ≤ 9980.
Proof.
  rewrite get_questions_some_404_iff, py_slice_nonneg by lia.
  rewrite index_range_nil_iff, list_all_length. lia.
Qed.

Lemma page_1_missing_iff (d : db) :
  get_questions (Some 1) d = Abort 404 ↔ questions d = [].
Proof.
  rewrite get_questions_some_404_iff, py_slice_nonneg by lia.
  rewrite index_range_nil_iff, list_all_length.
  destruct (questions d); simpl; split; try done; lia.
Qed.

Lemma search_cases (term : string) (d : db) :
  term ≠ ""%string →
  (add_or_search_question (search_payload term) d = (Abort 404, d)
   ∧ filter (λ q, ilike ("%" +:+ term +:+ "%") (Question.question q) = true)
       (questions d) = [])
  ∨ (∃ body x,
       add_or_search_question (search_payload term) d = (Ok 200 (inl body), d)
       ∧ l_success body = true
       ∧ x ∈ filter (λ q, ilike ("%" +:+ term +:+ "%") (Question.question q)
                          = true) (questions d)).
Proof.
  intros Hne. rewrite (search_unfold term) by done.
  destruct (filter _ _) as [|x xs]; [by left|].
  right. eexists _, x. split; [done|]. split; [done|]. left.
Qed.

Lemma category_listing_cases (cid : Z) (d : db) :
  (get_questions_by_category cid d = Abort 404 ∧ cid ∉ category_ids d)
  ∨ (∃ body, get_questions_by_category cid d = Ok 200 body
             ∧ l_success body = true ∧ cid ∈ category_ids d).
Proof.
  unfold get_questions_by_category.
  destruct (get_category d cid) as [c|] eqn:Hget.
  - right. eexists. split; [done|]. split; [done|].
    apply get_category_Some in Hget as [Hc <-].
    by apply list_elem_of_fmap_2.
  - left. split; [done|]. by apply get_category_None.
Qed.

End test_suite.

(** Four tests pass on every database: creating the planet question,
    rejecting the incomplete question (which stores nothing), deleting
    the first question (or one created for the purpose when there is
    none), and asking for a quiz question. *)
Theorem tests_passing_on_every_database (rnd : nat) (d : db) :
  fst (test_create_question d) = true
  ∧ length (questions (snd (test_create_question d)))
    = S (length (questions d))
  ∧ test_create_question_error d = (true, d)
  ∧ fst (test_delete_question d) = true
  ∧ questions (snd (test_delete_question d))
    = match questions d with
      | [] => []
      | q :: _ => filter (λ x, Question.id x ≠ Question.id q) (questions d)
      end
  ∧ test_play_quiz rnd d = (true, d).
Proof.
  split; [|split; [|split; [|split; [|split]]]].
  - unfold test_create_question. rewrite planet_question_accepted.
    simpl. rewrite bool_decide_eq_true_2; [done|].
    by apply head_filter_app_hit.
  - unfold test_create_question. rewrite planet_question_accepted.
    simpl. rewrite length_app. simpl. lia.
  - unfold test_create_question_error.
    by rewrite create_rejected_unchanged; [|done|right; right; left; left].
  - unfold test_delete_question.
    destruct (questions d) as [|q qs] eqn:Hqs; simpl.
    + unfold remove_question, get_question, insert. rewrite Hqs. simpl.
      rewrite bool_decide_eq_true_2 by done. simpl.
      rewrite filter_cons_False, filter_nil by (simpl; auto).
      by rewrite bool_decide_eq_true_2.
    + unfold remove_question, get_question. rewrite Hqs. simpl.
      rewrite bool_decide_eq_true_2 by done. simpl.
      rewrite bool_decide_eq_true_2; [done|].
      apply (get_question_None
               (session_delete q d) (Question.id q)).
      unfold question_ids. simpl.
      by intros (x & Heq & [Hne _]%list_elem_of_filter)%list_elem_of_fmap.
  - unfold test_delete_question.
    destruct (questions d) as [|q qs] eqn:Hqs; simpl.
    + unfold remove_question, get_question, insert. rewrite Hqs. simpl.
      rewrite bool_decide_eq_true_2 by done. simpl.
      by rewrite filter_cons_False, filter_nil by (simpl; auto).
    + unfold remove_question, get_question. rewrite Hqs. simpl.
      rewrite bool_decide_eq_true_2 by done. simpl. by rewrite Hqs.
  - unfold test_play_quiz.
    rewrite (play_quiz_readable rnd (quiz_for [] (Some 1)) d [] (Some 1))
      by done.
    by destruct (available _ _ d).
Qed.

(** The other tests depend on the data they meet.  Each one passes
    exactly under a condition on the database: a question to list,
    at most 9980 questions, no question with id 99999, a question that
    mentions "planet", none that contains "zzzzzzzzzzz", a category
    with id 1, and none with id 99999. *)
Theorem tests_depending_on_data (d : db) :
  (fst (test_get_paginated_questions d) = true ↔ questions d ≠ [])
  ∧ (fst (test_get_paginated_questions_error d) = true
     ↔ Z.of_nat (length (questions d)) ≤ 9980)
  ∧ (fst (test_delete_question_error d) = true ↔ 99999 ∉ question_ids d)
  ∧ (fst (test_search_question d) = true
     ↔ ∃ q, q ∈ questions d
            ∧ contains_ci "planet" (Question.question q) = true)
  ∧ (fst (test_search_question_error d) = true
     ↔ ∀ q, q ∈ questions d →
            contains_ci "zzzzzzzzzzz" (Question.question q) = false)
  ∧ (fst (test_get_questions_by_category d) = true ↔ 1 ∈ category_ids d)
  ∧ (fst (test_get_questions_by_category_error d) = true
     ↔ 99999 ∉ category_ids d).
Proof.
  split; [|split; [|split; [|split; [|split; [|split]]]]].
  - rewrite <- page_1_missing_iff. unfold test_get_paginated_questions.
    destruct (get_questions_cases (Some 1) d) as [E|(body & E & Hs)];
      rewrite E; simpl; [by split|]. by rewrite Hs.
  - rewrite <- page_999_missing_iff.
    unfold test_get_paginated_questions_error.
    destruct (get_questions_cases (Some 999) d) as [E|(body & E & Hs)];
      rewrite E; simpl; by split.
  - unfold test_delete_question_error. rewrite <- get_question_None.
    unfold remove_question. by destruct (get_question d 99999).
  - unfold test_search_question.
    destruct (search_cases "planet" d) as [[E Hf]|(body & x & E & Hs & Hx)];
      [done| |]; rewrite E; simpl.
    + split; [done|]. intros (q & Hq & Hc).
      rewrite <- (ilike_plain_contains "planet") in Hc by done.
      assert (q ∈ @nil Question.t) as Hin;
        [rewrite <- Hf; by apply list_elem_of_filter|].
      by apply elem_of_nil in Hin.
    + rewrite Hs. split; [|done]. intros _. exists x.
      apply list_elem_of_filter in Hx as [Hx ?].
      by rewrite (ilike_plain_contains "planet") in Hx.
  - unfold test_search_question_error.
    destruct (search_cases "zzzzzzzzzzz" d)
      as [[E Hf]|(body & x & E & Hs & Hx)]; [done| |]; rewrite E; simpl.
    + split; [|done]. intros _ q Hq.
      rewrite <- (ilike_plain_contains "zzzzzzzzzzz") by done.
      apply not_true_is_false. intros Hc.
      assert (q ∈ @nil Question.t) as Hin;
        [rewrite <- Hf; by apply list_elem_of_filter|].
      by apply elem_of_nil in Hin.
    + split; [done|]. intros Hall.
      apply list_elem_of_filter in Hx as [Hx Hin].
      rewrite (ilike_plain_contains "zzzzzzzzzzz") in Hx by done.
      by rewrite (Hall x Hin) in Hx.
  - unfold test_get_questions_by_category.
    destruct (category_listing_cases 1 d) as [[E Hc]|(body & E & Hs & Hc)];
      rewrite E; simpl; [by split|]. by rewrite Hs.
  - unfold test_get_questions_by_category_error.
    destruct (category_listing_cases 99999 d)
      as [[E Hc]|(body & E & Hs & Hc)]; rewrite E; simpl; by split.
Qed.

(** Run after the test that creates the planet question, the search
    test and the first-page test pass, whatever the database held
    before. *)
Theorem tests_passing_after_create (d : db) :
  fst (test_search_question (snd (test_create_question d))) = true
  ∧ fst (test_get_paginated_questions (snd (test_create_question d))) = true.
Proof.
  assert (snd (test_create_question d)
          = insert "What is the largest planet?" "Jupiter" 1 2 d) as ->.
  { unfold test_create_question. by rewrite planet_question_accepted. }
  split.
  - unfold test_search_question.
    destruct (search_cases "planet"
                (insert "What is the largest planet?" "Jupiter" 1 2 d))
      as [[E Hf]|(body & x & E & Hs & Hx)]; [done| |]; rewrite E; simpl.
    + exfalso.
      assert (Question.make (question_seq d) "What is the largest planet?"
                "Jupiter" (str 1) 2 ∈ @nil Question.t) as Hin;
        [|by apply elem_of_nil in Hin].
      rewrite <- Hf. apply list_elem_of_filter. split; [reflexivity|].
      simpl. apply elem_of_app. right. left.
    + by rewrite Hs.
  - unfold test_get_paginated_questions.
    destruct (get_questions_cases (Some 1)
                (insert "What is the largest planet?" "Jupiter" 1 2 d))
      as [E|(body & E & Hs)]; rewrite E; simpl; [|by rewrite Hs].
    apply page_1_missing_iff in E. simpl in E. by destruct (questions d).
Qed.
